(** * any_potd: photo-of-the-day downloader

    A shallow embedding of [any_potd.py] and the properties of its
    fetch / detect / save pipeline, its four provider adapters and its
    command-line dispatcher.

    Conventions of the embedding.
    - A Python [str] is a [string]; [str.lower] acts on the ASCII letters.
    - A Python [int] is a [Z].
    - A value decoded from JSON is a [json]; a [dict] is an association
      list read from the front.
    - Effects (prints, sleeps, HTTP requests, file-system calls) are recorded
      in a log carried by the [world]; an exception is a [Raise] result, and
      the log is kept when one is raised.
    - What the program obtains from outside (the answers of the network, the
      file system, the clock, and the library functions [urlparse] and
      [str()] of compound values) is gathered in an [env]; [urlparse] is
      taken on the URLs it accepts.
    - [os.path] and [pathlib] are the POSIX ones. *)

From Stdlib Require Import ZArith QArith List String Ascii Bool Lia.
From Stdlib Require Import DecimalString.
Import ListNotations.

Set Warnings "-register-all".
Set Warnings "-notation-overridden".
Set Warnings "-notation-incompatible-prefix".

Open Scope string_scope.
Open Scope Z_scope.

(** ** Strings *)

Module Str.

(** [str.lower] on one character. *)
Definition lower_char (c : ascii) : ascii :=
  let n := nat_of_ascii c in
  if (Nat.leb 65 n && Nat.leb n 90)%bool then ascii_of_nat (n + 32) else c.

Fixpoint lower (s : string) : string :=
  match s with
  | EmptyString => EmptyString
  | String c t => String (lower_char c) (lower t)
  end.

(** [s.startswith(p)] *)
Fixpoint startswith (p s : string) : bool :=
  match p, s with
  | EmptyString, _ => true
  | String a p', String b s' => Ascii.eqb a b && startswith p' s'
  | String _ _, EmptyString => false
  end.

(** [needle in s] *)
Fixpoint contains (needle s : string) : bool :=
  startswith needle s ||
  match s with
  | EmptyString => false
  | String _ t => contains needle t
  end.

(** [s.endswith(p)] *)
Definition endswith (p s : string) : bool :=
  (Nat.leb (String.length p) (String.length s) &&
   String.eqb (substring (String.length s - String.length p) (String.length p) s) p)%bool.

(** [s[:n]] and [s[n:]] for [0 <= n]. *)
Fixpoint take (n : nat) (s : string) : string :=
  match n, s with
  | S k, String c t => String c (take k t)
  | _, _ => EmptyString
  end.

Fixpoint drop (n : nat) (s : string) : string :=
  match n, s with
  | S k, String _ t => drop k t
  | _, _ => s
  end.

(** [s.rfind(c)] for a one-character [c]: the index of its last
    occurrence, or [-1]. *)
Fixpoint rfind_from (c : ascii) (s : string) (i acc : Z) : Z :=
  match s with
  | EmptyString => acc
  | String x t => rfind_from c t (i + 1) (if Ascii.eqb x c then i else acc)
  end.

Definition rfind (c : ascii) (s : string) : Z := rfind_from c s 0 (-1).

(** [all(x == c for x in s)] *)
Fixpoint all_char (c : ascii) (s : string) : bool :=
  match s with
  | EmptyString => true
  | String x t => Ascii.eqb x c && all_char c t
  end.

(** [c in s] for a one-character [c]. *)
Fixpoint has_char (c : ascii) (s : string) : bool :=
  match s with
  | EmptyString => false
  | String x t => Ascii.eqb x c || has_char c t
  end.

(** [sep.join(parts)] *)
Fixpoint join (sep : string) (parts : list string) : string :=
  match parts with
  | [] => ""
  | [p] => p
  | p :: rest => p ++ sep ++ join sep rest
  end.

(** [s.split(c)] for a one-character separator. *)
Fixpoint split_on (c : ascii) (s : string) : list string :=
  match s with
  | EmptyString => [""]
  | String x t =>
      if Ascii.eqb x c then "" :: split_on c t
      else match split_on c t with
           | [] => [String x ""]
           | h :: r => String x h :: r
           end
  end.

(** [str(n)] for an [int]; [format(n, "02d")] for [0 <= n]. *)
Definition of_Z (z : Z) : string := NilZero.string_of_int (Z.to_int z).

Definition of_Z_02d (z : Z) : string :=
  if (0 <=? z) && (z <? 10) then "0" ++ of_Z z else of_Z z.

End Str.

(** ** Python values, exceptions and results *)

(** Values produced by [response.json()]. *)
Inductive json : Type :=
| JNull
| JBool (b : bool)
| JInt (z : Z)
| JFloat (q : Q)
| JStr (s : string)
| JArr (items : list json)
| JObj (fields : list (string * json)).

(** The value returned by a Python function that the claims talk about:
    [None], or a [str]. *)
Inductive pyret : Type :=
| PyNone
| PyStr (s : string).

Inductive exn : Type :=
| RequestException (msg : string)   (* requests.RequestException and its subclasses *)
| Exception (msg : string)          (* raise Exception("...") *)
| KeyError (key : string)            (* the key, as repr() prints it *)
| IndexError (msg : string)
| TypeError (msg : string)
| AttributeError (msg : string)
| ValueError (msg : string)
| OSError (msg : string)
| SystemExit (code : Z)
| KeyboardInterrupt.

(** [isinstance(e, requests.RequestException)] *)
Definition is_RequestException (e : exn) : bool :=
  match e with RequestException _ => true | _ => false end.

(** [isinstance(e, KeyboardInterrupt)] *)
Definition is_KeyboardInterrupt (e : exn) : bool :=
  match e with KeyboardInterrupt => true | _ => false end.

(** [isinstance(e, Exception)]: everything but [SystemExit] and
    [KeyboardInterrupt], which derive from [BaseException] only. *)
Definition is_Exception (e : exn) : bool :=
  match e with SystemExit _ | KeyboardInterrupt => false | _ => true end.

(** [str(e)] *)
Definition exn_str (e : exn) : string :=
  match e with
  | RequestException m | Exception m | KeyError m | IndexError m | TypeError m
  | AttributeError m | ValueError m | OSError m => m
  | SystemExit c => Str.of_Z c
  | KeyboardInterrupt => ""
  end.

Inductive result (A : Type) : Type :=
| Ret (a : A)
| Raise (e : exn).
Arguments Ret {A} a.
Arguments Raise {A} e.

(** ** The outside world *)

Definition headers_t := list (string * string).

(** The arguments of one [requests.get] call. *)
Record request : Type := mkRequest {
  req_url : json;
  req_timeout : Z;
  req_allow_redirects : bool;
  req_headers : option headers_t;
  req_params : option headers_t
}.

(** What the program reads of a [requests.Response]. *)
Record response : Type := mkResponse {
  status_code : Z;
  reason : string;
  resp_url : string;
  content_type : option string;    (* headers.get('Content-Type') *)
  content : string;                (* the body *)
  json_body : option json          (* json(); None when the body does not decode *)
}.

Inductive get_outcome : Type :=
| Responds (r : response)
| Throws (e : exn).

Inductive stream : Type := Stdout | Stderr.

Inductive event : Type :=
| EPrint (s : stream) (msg : string)
| EGet (rq : request)
| ESleep (seconds : Z)
| ESaveCall (url : json) (target_path : string) (headers : option headers_t)
| EMkdir (path : string)
| EWrite (path : string) (data : string).

Record date : Type := mkDate { year : Z; month : Z; day : Z }.

Record env : Type := mkEnv {
  http_get : nat -> request -> get_outcome;  (* the answer to the n-th GET of the run *)
  urlparse_path : string -> string;          (* urlparse(url).path *)
  py_repr : json -> string;                  (* str() of floats, lists and dicts *)
  now : date;                                (* datetime.now() *)
  fs_mkdir : string -> option exn;           (* mkdir(parents=True, exist_ok=True) *)
  fs_write : string -> string -> option exn  (* open(path, 'wb') and write *)
}.

Record world : Type := mkWorld {
  VERBOSE : bool;       (* the global flag *)
  clock : nat;          (* GET requests issued so far *)
  log : list event      (* what has happened, oldest first *)
}.

(** ** The monad of the program: state and exceptions *)

Definition M (A : Type) : Type := world -> result A * world.

Definition ret {A} (a : A) : M A := fun w => (Ret a, w).

Definition raise {A} (e : exn) : M A := fun w => (Raise e, w).

Definition bind {A B} (m : M A) (k : A -> M B) : M B :=
  fun w =>
    match m w with
    | (Ret a, w') => k a w'
    | (Raise e, w') => (Raise e, w')
    end.

Notation "x <- m ;; k" := (bind m (fun x => k))
  (at level 61, m at next level, right associativity).
Notation "m ;;; k" := (bind m (fun _ => k))
  (at level 61, right associativity).

(** [try: body except <catches> as e: handler e] *)
Definition try_except {A} (body : M A) (catches : exn -> bool) (handler : exn -> M A) : M A :=
  fun w =>
    match body w with
    | (Raise e, w') => if catches e then handler e w' else (Raise e, w')
    | r => r
    end.

Definition lift {A} (r : result A) : M A := fun w => (r, w).

Definition emit (evs : list event) : M unit :=
  fun w => (Ret tt, mkWorld (VERBOSE w) (clock w) (log w ++ evs)).

Definition set_verbose (b : bool) : M unit :=
  fun w => (Ret tt, mkWorld b (clock w) (log w)).

Definition print (s : stream) (msg : string) : M unit := emit [EPrint s msg].

Definition time_sleep (seconds : Z) : M unit := emit [ESleep seconds].

(** [str(v)], as an f-string formats a value. *)
Definition py_str (E : env) (v : json) : string :=
  match v with
  | JStr s => s
  | JNull => "None"
  | JBool true => "True"
  | JBool false => "False"
  | JInt z => Str.of_Z z
  | _ => py_repr E v
  end.

(** [requests.get(...)]: the environment answers the request. *)
Definition requests_get (E : env) (rq : request) : M response :=
  fun w =>
    let w' := mkWorld (VERBOSE w) (S (clock w)) (log w ++ [EGet rq]) in
    match http_get E (clock w) rq with
    | Responds r => (Ret r, w')
    | Throws e => (Raise e, w')
    end.

(** The message of the [HTTPError] of [raise_for_status]. *)
Definition http_error_msg (r : response) : string :=
  Str.of_Z (status_code r) ++
  (if status_code r <? 500 then " Client Error: " else " Server Error: ") ++
  reason r ++ " for url: " ++ resp_url r.

Definition is_error_status (r : response) : bool :=
  (400 <=? status_code r) && (status_code r <? 600).

(** [response.raise_for_status()] *)
Definition raise_for_status (r : response) : M unit :=
  if is_error_status r then raise (RequestException (http_error_msg r)) else ret tt.

(** [response.json()] *)
Definition response_json (r : response) : M json :=
  match json_body r with
  | Some j => ret j
  | None => raise (ValueError "Expecting value: line 1 column 1 (char 0)")
  end.

(** ** any_potd.py *)

(** [log_verbose] *)
Definition log_verbose (message : string) : M unit :=
  fun w => if VERBOSE w then print Stdout ("[INFO] " ++ message) w else (Ret tt, w).

(** [range(n)] *)
Definition range (n : Z) : list Z := map Z.of_nat (seq 0 (Z.to_nat n)).

(** One iteration of the loop of [retry_request]: [Some r] when the
    function returns [r], [None] when the loop goes on. *)
Definition retry_attempt (E : env) (url : json) (max_retries timeout : Z)
    (headers params : option headers_t) (attempt : Z) : M (option response) :=
  try_except
    (log_verbose ("Fetching " ++ py_str E url ++ " (attempt " ++ Str.of_Z (attempt + 1)
                  ++ "/" ++ Str.of_Z max_retries ++ ")") ;;;
     response <- requests_get E (mkRequest url timeout true headers params) ;;
     raise_for_status response ;;;
     ret (Some response))
    is_RequestException
    (fun e =>
       if attempt =? max_retries - 1 then raise e
       else
         log_verbose ("Request failed: " ++ exn_str e ++ ". Retrying...") ;;;
         time_sleep (2 ^ attempt) ;;;
         ret None).

(** [for attempt in attempts: body], where the body may return from the
    enclosing function. *)
Fixpoint for_attempts {A} (body : Z -> M (option A)) (attempts : list Z) : M (option A) :=
  match attempts with
  | [] => ret None
  | attempt :: rest =>
      r <- body attempt ;;
      match r with
      | Some x => ret (Some x)
      | None => for_attempts body rest
      end
  end.

(** The loop of [retry_request]; [None] when it runs to its end. *)
Definition retry_loop (E : env) (url : json) (max_retries timeout : Z)
    (headers params : option headers_t) : M (option response) :=
  for_attempts (retry_attempt E url max_retries timeout headers params) (range max_retries).

Definition retry_request (E : env) (url : json) (max_retries timeout : Z)
    (headers params : option headers_t) : M response :=
  r <- retry_loop E url max_retries timeout headers params ;;
  match r with
  | Some response => ret response
  | None => raise (RequestException "Max retries exceeded")
  end.

(** *** [os.path.splitext] (posixpath) *)

(** The extension starts at the last dot of the last component, unless
    only dots precede it there: the loop of [genericpath._splitext] that
    skips the leading dots of the file name is the test [all_char]. *)
Definition splitext (p : string) : string * string :=
  let sepIndex := Str.rfind "/" p in
  let dotIndex := Str.rfind "." p in
  if sepIndex <? dotIndex then
    let filenameIndex := Z.to_nat (sepIndex + 1) in
    let before_dot := Str.take (Z.to_nat dotIndex - filenameIndex) (Str.drop filenameIndex p) in
    if Str.all_char "." before_dot then (p, "")
    else (Str.take (Z.to_nat dotIndex) p, Str.drop (Z.to_nat dotIndex) p)
  else (p, "").

(** *** [detect_extension] *)

Definition image_suffixes : list string := [".jpg"; ".jpeg"; ".png"; ".gif"; ".webp"].

(** [s in l] *)
Definition in_list (s : string) (l : list string) : bool := existsb (String.eqb s) l.

(** The truth value of an [Optional[str]]. *)
Definition truthy_opt (o : option string) : bool :=
  match o with
  | Some s => negb (s =? "")%string
  | None => false
  end.

(** The second half of [detect_extension]: the content type, then the
    default. *)
Definition extension_of_content_type (content_type : option string) : string :=
  match content_type with
  | Some ct =>
      if truthy_opt content_type then
        let content_type := Str.lower ct in
        if Str.contains "jpeg" content_type || Str.contains "jpg" content_type then ".jpg"
        else if Str.contains "png" content_type then ".png"
        else if Str.contains "gif" content_type then ".gif"
        else if Str.contains "webp" content_type then ".webp"
        else ".jpg"
      else ".jpg"
  | None => ".jpg"
  end.

Definition detect_extension (E : env) (url : string) (content_type : option string) : string :=
  let path := urlparse_path E url in
  if Str.contains "." path then
    let ext := Str.lower (snd (splitext path)) in
    if in_list ext image_suffixes then ext
    else extension_of_content_type content_type
  else extension_of_content_type content_type.

(** *** [pathlib.Path] (pure POSIX paths) *)

Module Pathlib.

(** A parsed path: the root (empty, "/" or "//") and the components
    after it, without the empty and the "." ones. *)
Record path : Type := mkPath { root : string; parts : list string }.

Definition parse_root (s : string) : string :=
  if Str.startswith "/" s then
    if Str.startswith "//" s && negb (Str.startswith "///" s) then "//" else "/"
  else "".

(** [Path(s)] *)
Definition Path (s : string) : path :=
  mkPath (parse_root s)
         (filter (fun c => negb (c =? "")%string && negb (c =? ".")%string) (Str.split_on "/" s)).

(** [str(p)] *)
Definition str (p : path) : string :=
  match root p, parts p with
  | EmptyString, [] => "."
  | r, ps => r ++ Str.join "/" ps
  end.

(** [p.name] *)
Definition name (p : path) : string := last (parts p) "".

(** [p.suffix] *)
Definition suffix (p : path) : string :=
  let name := name p in
  let i := Str.rfind "." name in
  if (0 <? i) && (i <? Z.of_nat (String.length name) - 1) then Str.drop (Z.to_nat i) name
  else "".

(** [p.with_suffix(suffix)] *)
Definition with_suffix (p : path) (sfx : string) : result path :=
  if Str.contains "/" sfx then Raise (ValueError ("Invalid suffix " ++ sfx))
  else if (negb (sfx =? "")%string && negb (Str.startswith "." sfx)) || (sfx =? ".")%string
  then Raise (ValueError ("Invalid suffix " ++ sfx))
  else
    let name := name p in
    if (name =? "")%string then Raise (ValueError (str p ++ " has an empty name"))
    else
      let old_suffix := suffix p in
      let name' :=
        if (old_suffix =? "")%string then name ++ sfx
        else Str.take (String.length name - String.length old_suffix) name ++ sfx in
      Ret (mkPath (root p) (removelast (parts p) ++ [name'])).

(** [p.parent] *)
Definition parent (p : path) : path :=
  match parts p with
  | [] => p
  | _ => mkPath (root p) (removelast (parts p))
  end.

End Pathlib.

(** [path.mkdir(parents=True, exist_ok=True)]; the event records a call
    that did not fail. *)
Definition mkdir (E : env) (p : Pathlib.path) : M unit :=
  match fs_mkdir E (Pathlib.str p) with
  | Some e => raise e
  | None => emit [EMkdir (Pathlib.str p)]
  end.

(** [with open(path, 'wb') as f: f.write(data)]; the event records a
    write that did not fail. *)
Definition write_file (E : env) (p : Pathlib.path) (data : string) : M unit :=
  match fs_write E (Pathlib.str p) data with
  | Some e => raise e
  | None => emit [EWrite (Pathlib.str p) data]
  end.

(** *** [download_and_save] *)

(** [detect_extension(url, content_type)] at a value that need not be a
    [str]: [urlparse] rejects the others. *)
Definition call_detect_extension (E : env) (url : json) (content_type : option string)
  : M string :=
  match url with
  | JStr u => ret (detect_extension E u content_type)
  | _ => raise (AttributeError "object has no attribute 'decode'")
  end.

(** The entry of the function is recorded in the log ([ESaveCall]); the
    function has no [return] statement, so it returns [None]. *)
Definition download_and_save (E : env) (url : json) (target_path : string)
    (headers : option headers_t) : M pyret :=
  emit [ESaveCall url target_path headers] ;;;
  log_verbose ("Downloading image from " ++ py_str E url) ;;;
  response <- retry_request E url 3 30 headers None ;;
  let target := Pathlib.Path target_path in
  target <-
    (if (Pathlib.suffix target =? "")%string
        || negb (in_list (Str.lower (Pathlib.suffix target)) image_suffixes)
     then
       let content_type :=
         match content_type response with Some c => c | None => "" end in
       ext <- call_detect_extension E url (Some content_type) ;;
       target <- lift (Pathlib.with_suffix target ext) ;;
       log_verbose ("Auto-detected extension: " ++ ext) ;;;
       ret target
     else ret target) ;;
  mkdir E (Pathlib.parent target) ;;;
  log_verbose ("Saving image to " ++ Pathlib.str target) ;;;
  write_file E target (content response) ;;;
  print Stdout ("Successfully downloaded to: " ++ Pathlib.str target) ;;;
  ret PyNone.

(** *** Reading decoded JSON *)

(** The truth value of a decoded value ([if v], [not v], [a or b]). *)
Definition truthy (v : json) : bool :=
  match v with
  | JNull => false
  | JBool b => b
  | JInt z => negb (z =? 0)
  | JFloat q => negb (Qnum q =? 0)
  | JStr s => negb (s =? "")%string
  | JArr items => match items with [] => false | _ => true end
  | JObj fields => match fields with [] => false | _ => true end
  end.

(** [type(v).__name__] *)
Definition type_name (v : json) : string :=
  match v with
  | JNull => "NoneType"
  | JBool _ => "bool"
  | JInt _ => "int"
  | JFloat _ => "float"
  | JStr _ => "str"
  | JArr _ => "list"
  | JObj _ => "dict"
  end.

Fixpoint assoc (k : string) (fields : list (string * json)) : option json :=
  match fields with
  | [] => None
  | (k', v) :: rest => if (k' =? k)%string then Some v else assoc k rest
  end.

(** [v.get(k, default)]; [v.get(k)] is [dict_get v k JNull]. *)
Definition dict_get (v : json) (k : string) (default : json) : result json :=
  match v with
  | JObj fields =>
      Ret (match assoc k fields with Some x => x | None => default end)
  | _ => Raise (AttributeError ("'" ++ type_name v ++ "' object has no attribute 'get'"))
  end.

(** [v[k]] for a [str] key. *)
Definition getitem_key (v : json) (k : string) : result json :=
  match v with
  | JObj fields =>
      match assoc k fields with
      | Some x => Ret x
      | None => Raise (KeyError ("'" ++ k ++ "'"))
      end
  | JArr _ => Raise (TypeError "list indices must be integers or slices, not str")
  | JStr _ => Raise (TypeError "string indices must be integers")
  | _ => Raise (TypeError ("'" ++ type_name v ++ "' object is not subscriptable"))
  end.

(** [v[0]] *)
Definition getitem_0 (v : json) : result json :=
  match v with
  | JArr (x :: _) => Ret x
  | JArr [] => Raise (IndexError "list index out of range")
  | JStr (String c _) => Ret (JStr (String c ""))
  | JStr EmptyString => Raise (IndexError "string index out of range")
  | JObj _ => Raise (KeyError "0")
  | _ => Raise (TypeError ("'" ++ type_name v ++ "' object is not subscriptable"))
  end.

(** [len(v)] *)
Definition py_len (v : json) : result Z :=
  match v with
  | JStr s => Ret (Z.of_nat (String.length s))
  | JArr items => Ret (Z.of_nat (List.length items))
  | JObj fields => Ret (Z.of_nat (List.length fields))
  | _ => Raise (TypeError ("object of type '" ++ type_name v ++ "' has no len()"))
  end.

(** [v[:100]] *)
Definition slice_100 (v : json) : result json :=
  match v with
  | JStr s => Ret (JStr (Str.take 100 s))
  | JArr items => Ret (JArr (firstn 100 items))
  | JObj _ => Raise (TypeError "unhashable type: 'slice'")
  | _ => Raise (TypeError ("'" ++ type_name v ++ "' object is not subscriptable"))
  end.

(** [v != s] for a [str] literal [s]. *)
Definition not_equal_str (v : json) (s : string) : bool :=
  match v with
  | JStr x => negb (x =? s)%string
  | _ => true
  end.

(** *** The provider adapters *)

Definition download_bing (E : env) (target : string) : M unit :=
  log_verbose "Fetching Bing Photo of the Day" ;;;
  let url := "https://www.bing.com/HPImageArchive.aspx?format=js&idx=0&n=1&mkt=en-US" in
  response <- retry_request E (JStr url) 3 30 None None ;;
  data <- response_json response ;;
  images <- lift (dict_get data "images" JNull) ;;
  if negb (truthy images) then raise (Exception "No images found in Bing response")
  else
    images <- lift (getitem_key data "images") ;;
    image <- lift (getitem_0 images) ;;
    urlbase <- lift (getitem_key image "urlbase") ;;
    let img_url := "https://www.bing.com" ++ py_str E urlbase ++ "_1920x1080.jpg" in
    images <- lift (getitem_key data "images") ;;
    image <- lift (getitem_0 images) ;;
    title <- lift (dict_get image "title" (JStr "Unknown")) ;;
    images <- lift (getitem_key data "images") ;;
    image <- lift (getitem_0 images) ;;
    copyright_text <- lift (dict_get image "copyright" (JStr "Unknown")) ;;
    log_verbose ("Photo: " ++ py_str E title) ;;;
    log_verbose ("Copyright: " ++ py_str E copyright_text) ;;;
    download_and_save E (JStr img_url) target None ;;;
    ret tt.

Definition download_nasa (E : env) (target : string) (api_key : string) : M unit :=
  log_verbose "Fetching NASA APOD" ;;;
  let url := "https://api.nasa.gov/planetary/apod?api_key=" ++ api_key in
  response <- retry_request E (JStr url) 3 30 None None ;;
  data <- response_json response ;;
  media_type <- lift (dict_get data "media_type" JNull) ;;
  if not_equal_str media_type "image" then
    media_type <- lift (dict_get data "media_type" JNull) ;;
    raise (Exception ("Today's APOD is not an image, it's a " ++ py_str E media_type))
  else
    hdurl <- lift (dict_get data "hdurl" JNull) ;;
    img_url <- (if truthy hdurl then ret hdurl else lift (dict_get data "url" JNull)) ;;
    if negb (truthy img_url) then raise (Exception "No image URL found in NASA APOD response")
    else
      title <- lift (dict_get data "title" (JStr "Unknown")) ;;
      date <- lift (dict_get data "date" (JStr "Unknown")) ;;
      log_verbose ("Title: " ++ py_str E title) ;;;
      log_verbose ("Date: " ++ py_str E date) ;;;
      download_and_save E img_url target None ;;;
      ret tt.

Definition wikipedia_headers : headers_t :=
  [("User-Agent",
    "any-photo-of-the-day/1.0 (https://github.com/yourusername/any-photo-of-the-day)")].

Definition download_wikipedia (E : env) (target : string) : M unit :=
  log_verbose "Fetching Wikipedia Picture of the Day" ;;;
  let url := "https://en.wikipedia.org/api/rest_v1/feed/featured/"
             ++ Str.of_Z (year (now E)) ++ "/" ++ Str.of_Z_02d (month (now E))
             ++ "/" ++ Str.of_Z_02d (day (now E)) in
  let headers := wikipedia_headers in
  response <- retry_request E (JStr url) 3 30 (Some headers) None ;;
  data <- response_json response ;;
  potd <- lift (dict_get data "image" JNull) ;;
  if negb (truthy potd) then
    raise (Exception "No Picture of the Day found in Wikipedia response")
  else
    image <- lift (dict_get potd "image" (JObj [])) ;;
    img_url <- lift (dict_get image "source" JNull) ;;
    if negb (truthy img_url) then
      raise (Exception "No image URL found in Wikipedia Picture of the Day")
    else
      title <- lift (dict_get potd "title" (JStr "Unknown")) ;;
      description <- lift (dict_get potd "description" (JObj [])) ;;
      description <- lift (dict_get description "text" (JStr "No description")) ;;
      artist <- lift (dict_get potd "artist" (JObj [])) ;;
      artist <- lift (dict_get artist "text" (JStr "Unknown")) ;;
      log_verbose ("Title: " ++ py_str E title) ;;;
      log_verbose ("Artist: " ++ py_str E artist) ;;;
      n <- lift (py_len description) ;;
      message <-
        (if 100 <? n then
           short <- lift (slice_100 description) ;;
           ret ("Description: " ++ py_str E short ++ "...")
         else ret ("Description: " ++ py_str E description)) ;;
      log_verbose message ;;;
      download_and_save E img_url target (Some headers) ;;;
      ret tt.

Definition download_unsplash (E : env) (target : string) (api_key : string)
    (topic query : option string) : M unit :=
  log_verbose ("Fetching Unsplash photo" ++
               match topic with
               | Some t => if truthy_opt topic then " (topic: " ++ t ++ ")" else ""
               | None => ""
               end) ;;;
  if (api_key =? "")%string then
    raise (Exception "Unsplash API key is required. Get one at https://unsplash.com/developers")
  else
    let url := "https://api.unsplash.com/photos/random" in
    let params := [("orientation", "landscape")] in
    params <-
      match topic with
      | Some t =>
          if truthy_opt topic then
            log_verbose ("Using topic: " ++ t) ;;; ret (params ++ [("topics", t)])%list
          else ret params
      | None => ret params
      end ;;
    params <-
      match query with
      | Some q =>
          if truthy_opt query then
            log_verbose ("Using query: " ++ q) ;;; ret (params ++ [("query", q)])%list
          else ret params
      | None => ret params
      end ;;
    let headers := [("Authorization", "Client-ID " ++ api_key)] in
    log_verbose ("Fetching from Unsplash API: " ++ url) ;;;
    response <- retry_request E (JStr url) 3 30 (Some headers) (Some params) ;;
    data <- response_json response ;;
    urls <- lift (dict_get data "urls" (JObj [])) ;;
    full <- lift (dict_get urls "full" JNull) ;;
    img_url <-
      (if truthy full then ret full
       else
         urls <- lift (dict_get data "urls" (JObj [])) ;;
         lift (dict_get urls "regular" JNull)) ;;
    if negb (truthy img_url) then raise (Exception "No image URL found in Unsplash response")
    else
      user <- lift (dict_get data "user" (JObj [])) ;;
      photographer <- lift (dict_get user "name" (JStr "Unknown")) ;;
      log_verbose ("Photo by: " ++ py_str E photographer) ;;;
      download_and_save E img_url target None ;;;
      ret tt.

(** *** [main] *)

Inductive source_t : Type := bing | nasa | wikipedia | unsplash.

(** The namespace returned by [parser.parse_args()]. *)
Record args : Type := mkArgs {
  source : source_t;
  target : string;
  api_key : string;                    (* --api-key, default "DEMO_KEY" *)
  unsplash_api_key : option string;    (* --unsplash-api-key *)
  topic : option string;
  query : option string;
  verbose : bool
}.

(** [sys.exit(code)] *)
Definition sys_exit {A} (code : Z) : M A := raise (SystemExit code).

Definition newline : string := String (ascii_of_nat 10) "".

(** [main], from the parsed arguments on. *)
Definition main (E : env) (a : args) : M unit :=
  set_verbose (verbose a) ;;;
  try_except
    (match source a with
     | bing => download_bing E (target a)
     | nasa => download_nasa E (target a) (api_key a)
     | wikipedia => download_wikipedia E (target a)
     | unsplash =>
         if negb (truthy_opt (unsplash_api_key a)) then
           print Stderr "Error: --unsplash-api-key is required for Unsplash source" ;;;
           print Stderr "Get a free API key at: https://unsplash.com/developers" ;;;
           sys_exit 1
         else
           download_unsplash E (target a)
             (match unsplash_api_key a with Some k => k | None => "" end)
             (topic a) (query a)
     end)
    (fun e => is_KeyboardInterrupt e || is_Exception e)
    (fun e =>
       if is_KeyboardInterrupt e then
         print Stdout (newline ++ "Cancelled by user") ;;;
         sys_exit 1
       else
         print Stderr ("Error: " ++ exn_str e) ;;;
         sys_exit 1).

(** The exit status of the process after [main]. *)
Definition exit_status {A} (r : result A) : Z :=
  match r with
  | Ret _ => 0
  | Raise (SystemExit code) => code
  | Raise _ => 1
  end.


(** ** Observing a run *)

(** The backoff sleeps of a log, in order. *)
Definition sleeps (l : list event) : list Z :=
  flat_map (fun ev => match ev with ESleep s => [s] | _ => [] end) l.

(** The GET requests of a log, in order. *)
Definition gets (l : list event) : list request :=
  flat_map (fun ev => match ev with EGet rq => [rq] | _ => [] end) l.

(** The calls of [download_and_save] of a log, in order. *)
Definition save_calls (l : list event) : list (json * string * option headers_t) :=
  flat_map (fun ev => match ev with ESaveCall u t h => [(u, t, h)] | _ => [] end) l.

(** The files written in a log, in order. *)
Definition writes (l : list event) : list (string * string) :=
  flat_map (fun ev => match ev with EWrite p data => [(p, data)] | _ => [] end) l.

(** The body of the [try] of [retry_request] at the [n]-th GET of the run:
    the response, or what [requests.get] or [raise_for_status] raises. *)
Definition attempt_result (E : env) (n : nat) (rq : request) : result response :=
  match http_get E n rq with
  | Throws e => Raise e
  | Responds r =>
      if is_error_status r then Raise (RequestException (http_error_msg r)) else Ret r
  end.

(** The [n]-th GET of the run fails: a transport error or an error status. *)
Definition attempt_fails (E : env) (n : nat) (rq : request) : Prop :=
  exists e, attempt_result E n rq = Raise e /\ is_RequestException e = true.

(** The sleeps of [n] backoffs: 2^0, ..., 2^(n-1). *)
Definition backoff (n : nat) : list Z := map (fun i => 2 ^ Z.of_nat i) (seq 0 n).

(** [m] only adds to the log, and every event it adds satisfies [P]. *)
Definition emits {A} (P : event -> Prop) (m : M A) : Prop :=
  forall w, exists d, log (snd (m w)) = (log w ++ d)%list /\ Forall P d.

(** What an adapter does before it calls [download_and_save]: it prints,
    sleeps, and sends GET requests with the headers [h]. *)
Definition metadata_event (h : option headers_t) (ev : event) : Prop :=
  match ev with
  | EPrint _ _ | ESleep _ => True
  | EGet rq => req_headers rq = h
  | ESaveCall _ _ _ | EMkdir _ | EWrite _ _ => False
  end.

(** What [download_and_save url _ h] does after its entry: its GET requests
    are for [url], with the headers [h]. *)
Definition save_event (url : json) (h : option headers_t) (ev : event) : Prop :=
  match ev with
  | EPrint _ _ | ESleep _ | EMkdir _ | EWrite _ _ => True
  | EGet rq => rq = mkRequest url 30 true h None
  | ESaveCall _ _ _ => False
  end.

(** The run of an adapter: a metadata phase with the headers [hm]; then
    either a failure, or one call of [download_and_save] on a true value
    [u], for [target], with the headers [hs]. *)
Definition adapter_run (hm hs : option headers_t) (target : string) (m : M unit) : Prop :=
  forall w, exists d1 d2,
    log (snd (m w)) = (log w ++ d1 ++ d2)%list /\
    Forall (metadata_event hm) d1 /\
    ((d2 = [] /\ exists e, fst (m w) = Raise e) \/
     (exists u d,
        d2 = ESaveCall u target hs :: d /\ truthy u = true /\ Forall (save_event u hs) d)).

(** An adapter resolves one image URL or fails: it raises without having
    called [download_and_save], or it has called it once, on a true
    value. *)
Definition resolves_or_fails (target : string) (m : M unit) : Prop :=
  forall w, exists d,
    log (snd (m w)) = (log w ++ d)%list /\
    ((save_calls d = [] /\ exists e, fst (m w) = Raise e) \/
     (exists u h, save_calls d = [(u, target, h)] /\ truthy u = true)).

(** Everything but the writing of a file. *)
Definition not_write (ev : event) : Prop :=
  match ev with
  | EWrite _ _ => False
  | _ => True
  end.

(** The URL of a call of [download_and_save] is a [str]. *)
Definition save_url_is_str (ev : event) : Prop :=
  match ev with
  | ESaveCall (JStr _) _ _ => True
  | ESaveCall _ _ _ => False
  | _ => True
  end.

(** [data.get(k)] on the fields of a [dict]. *)
Definition field (fields : list (string * json)) (k : string) : json :=
  match assoc k fields with
  | Some x => x
  | None => JNull
  end.

(** The metadata fetch of [download_nasa]. *)
Definition nasa_fetch (E : env) (api_key : string) : M response :=
  log_verbose "Fetching NASA APOD" ;;;
  retry_request E (JStr ("https://api.nasa.gov/planetary/apod?api_key=" ++ api_key))
    3 30 None None.

(** [os.path.basename] *)
Definition basename (p : string) : string :=
  Str.drop (Z.to_nat (Str.rfind "/" p + 1)) p.

(** The file name of [p] has a character other than a dot before its
    last [n] characters. *)
Definition has_stem (p : string) (n : nat) : bool :=
  negb (Str.all_char "." (Str.take (String.length (basename p) - n) (basename p))).

(** ** Sample runs

    Concrete environments and inputs on which the program is evaluated. *)

Definition initial_world : world := mkWorld false 0 [].

Definition ok_response (ct : option string) (body : string) (j : option json) : response :=
  mkResponse 200 "OK" "" ct body j.

(** An environment given by the answers of the network and by the path
    that [urlparse] finds in the URLs of the run; the file system accepts
    every call. *)
Definition sample_env (http : nat -> request -> get_outcome) (path : string -> string)
  : env :=
  mkEnv http path (fun _ => "") (mkDate 2024 3 7) (fun _ => None) (fun _ _ => None).

Definition sample_request : request := mkRequest (JStr "http://a") 30 true None None.

(** Two timeouts, then an answer. *)
Definition env_two_timeouts : env :=
  sample_env
    (fun n _ =>
       if (n <? 2)%nat then Throws (RequestException "timed out")
       else Responds (ok_response (Some "image/png") "PNG" None))
    (fun _ => "/").

(** Two different failures, one after the other. *)
Definition env_two_failures : env :=
  sample_env
    (fun n _ =>
       match n with
       | O => Throws (RequestException "first")
       | _ => Throws (RequestException "second")
       end)
    (fun _ => "/").

(** A picture whose file name is only an extension. *)
Definition env_dotfile : env :=
  sample_env (fun _ _ => Responds (ok_response (Some "image/gif") "GIF" None))
             (fun _ => "/.png").

(** A picture with an upper-case extension. *)
Definition env_upper_png : env :=
  sample_env (fun _ _ => Responds (ok_response (Some "image/gif") "GIF" None))
             (fun _ => "/media/Photo.PNG").

Definition json_response (j : json) : response :=
  ok_response (Some "application/json") "" (Some j).

(** An APOD answer whose [hdurl] is a number; [requests] rejects the
    number as a URL. *)
Definition env_nasa_numeric : env :=
  sample_env
    (fun n _ =>
       match n with
       | O => Responds (json_response (JObj [("media_type", JStr "image"); ("hdurl", JInt 5)]))
       | _ => Throws (RequestException "Invalid URL '5': No scheme supplied")
       end)
    (fun _ => "/").

(** An APOD answer for a video, and one for an image with [url] only. *)
Definition env_nasa_video : env :=
  sample_env
    (fun _ _ =>
       Responds (json_response (JObj [("media_type", JStr "video");
                                      ("url", JStr "https://www.youtube.com/embed/x")])))
    (fun _ => "/embed/x").

Definition env_nasa_url_only : env :=
  sample_env
    (fun n _ =>
       match n with
       | O => Responds (json_response (JObj [("media_type", JStr "image");
                                             ("url", JStr "https://apod.nasa.gov/image/m31")]))
       | _ => Responds (ok_response (Some "image/jpeg") "JPEG" None)
       end)
    (fun _ => "/image/m31").

(** An Unsplash answer, then the picture. *)
Definition env_unsplash : env :=
  sample_env
    (fun n _ =>
       match n with
       | O => Responds (json_response
                          (JObj [("urls", JObj [("full", JStr "https://images.unsplash.com/photo-1")])]))
       | _ => Responds (ok_response (Some "image/jpeg") "JPEG" None)
       end)
    (fun _ => "/photo-1").

(** A picture served as [image/png], at a URL without an extension and at
    a URL that ends in [.jpg]. *)
Definition env_png : env :=
  sample_env (fun _ _ => Responds (ok_response (Some "image/png") "PNG" None))
             (fun _ => "/image").

Definition env_png_at_jpg_url : env :=
  sample_env (fun _ _ => Responds (ok_response (Some "image/png") "PNG" None))
             (fun _ => "/pic.jpg").

(** The user interrupts the first request. *)
Definition env_interrupted : env :=
  sample_env (fun _ _ => Throws KeyboardInterrupt) (fun _ => "/").

(** URLs that are a path only: [urlparse] returns them as the path. *)
Definition env_path_urls : env :=
  sample_env (fun _ _ => Responds (ok_response (Some "image/gif") "GIF" None))
             (fun u => u).

(** A picture whose URL ends in [.JPEG]. *)
Definition env_jpeg_url : env :=
  sample_env (fun _ _ => Responds (ok_response None "JPEG" None))
             (fun _ => "/shots/moon.JPEG").

(** A computation that writes one file and returns, or writes none and
    raises. *)
Definition saves_or_fails {A} (m : M A) : Prop :=
  forall w, exists d,
    log (snd (m w)) = (log w ++ d)%list /\
    ((exists e, fst (m w) = Raise e /\ writes d = []) \/
     (exists a p data, fst (m w) = Ret a /\ writes d = [(p, data)])).

(** The adapter that [main] calls for its arguments, when the key of
    Unsplash is there. *)
Definition adapter_of (E : env) (a : args) : M unit :=
  match source a with
  | bing => download_bing E (target a)
  | nasa => download_nasa E (target a) (api_key a)
  | wikipedia => download_wikipedia E (target a)
  | unsplash =>
      download_unsplash E (target a)
        (match unsplash_api_key a with Some k => k | None => "" end)
        (topic a) (query a)
  end.

(** Bing answers with an empty list of images. *)
Definition env_bing_empty : env :=
  sample_env (fun _ _ => Responds (json_response (JObj [("images", JArr [])])))
             (fun _ => "/").

(** Prints, and nothing else. *)
Definition print_only (ev : event) : Prop :=
  match ev with
  | EPrint _ _ => True
  | _ => False
  end.

(** The metadata fetch of [download_bing]. *)
Definition bing_fetch (E : env) : M response :=
  log_verbose "Fetching Bing Photo of the Day" ;;;
  retry_request E
    (JStr "https://www.bing.com/HPImageArchive.aspx?format=js&idx=0&n=1&mkt=en-US")
    3 30 None None.

(** Bing answers with one image. *)
Definition env_bing_image : env :=
  sample_env
    (fun n _ =>
       match n with
       | O => Responds (json_response
                          (JObj [("images",
                                  JArr [JObj [("urlbase", JStr "/th?id=OHR.Test");
                                              ("title", JStr "T");
                                              ("copyright", JStr "C")]])]))
       | _ => Responds (ok_response (Some "image/jpeg") "JPEG" None)
       end)
    (fun _ => "/th").

(** Bing answers with an image that has no [urlbase]. *)
Definition env_bing_no_urlbase : env :=
  sample_env
    (fun _ _ => Responds (json_response (JObj [("images", JArr [JObj [("title", JStr "T")]])])))
    (fun _ => "/").

(** An APOD answer with both [hdurl] and [url], and one with neither. *)
Definition env_nasa_both : env :=
  sample_env
    (fun n _ =>
       match n with
       | O => Responds (json_response
                          (JObj [("media_type", JStr "image");
                                 ("url", JStr "https://apod.nasa.gov/image/m31_small.jpg");
                                 ("hdurl", JStr "https://apod.nasa.gov/image/m31_big.jpg")]))
       | _ => Responds (ok_response (Some "image/jpeg") "JPEG" None)
       end)
    (fun _ => "/image/m31_big.jpg").

Definition env_nasa_no_url : env :=
  sample_env
    (fun _ _ => Responds (json_response (JObj [("media_type", JStr "image");
                                               ("hdurl", JStr "")])))
    (fun _ => "/").

(** The metadata fetch of [download_wikipedia]. *)
Definition wikipedia_fetch (E : env) : M response :=
  log_verbose "Fetching Wikipedia Picture of the Day" ;;;
  retry_request E
    (JStr ("https://en.wikipedia.org/api/rest_v1/feed/featured/"
           ++ Str.of_Z (year (now E)) ++ "/" ++ Str.of_Z_02d (month (now E))
           ++ "/" ++ Str.of_Z_02d (day (now E))))
    3 30 (Some wikipedia_headers) None.

(** Answers of Wikipedia: a day without a picture; a picture without a
    source; a picture whose description is a number; a picture. *)
Definition env_wikipedia_no_image : env :=
  sample_env (fun _ _ => Responds (json_response (JObj [("tfa", JObj [])])))
             (fun _ => "/").

Definition env_wikipedia_no_source : env :=
  sample_env
    (fun _ _ => Responds (json_response
                            (JObj [("image", JObj [("title", JStr "File:Moon.jpg")])])))
    (fun _ => "/").

Definition env_wikipedia_numeric_description : env :=
  sample_env
    (fun _ _ =>
       Responds (json_response
                   (JObj [("image",
                           JObj [("image", JObj [("source", JStr "https://upload.wikimedia.org/moon.jpg")]);
                                 ("description", JObj [("text", JInt 7)])])])))
    (fun _ => "/moon.jpg").

Definition env_wikipedia_image : env :=
  sample_env
    (fun n _ =>
       match n with
       | O =>
           Responds (json_response
                       (JObj [("image",
                               JObj [("title", JStr "File:Moon.jpg");
                                     ("image", JObj [("source", JStr "https://upload.wikimedia.org/moon.jpg")]);
                                     ("description", JObj [("text", JStr "The Moon")])])]))
       | _ => Responds (ok_response (Some "image/jpeg") "JPEG" None)
       end)
    (fun _ => "/moon.jpg").

(** The metadata fetch of [download_unsplash], once the key is known to be
    there. *)
Definition unsplash_fetch (E : env) (api_key : string) (topic query : option string)
  : M response :=
  log_verbose ("Fetching Unsplash photo" ++
               match topic with
               | Some t => if truthy_opt topic then " (topic: " ++ t ++ ")" else ""
               | None => ""
               end) ;;;
  let url := "https://api.unsplash.com/photos/random" in
  let params := [("orientation", "landscape")] in
  params <-
    match topic with
    | Some t =>
        if truthy_opt topic then
          log_verbose ("Using topic: " ++ t) ;;; ret (params ++ [("topics", t)])%list
        else ret params
    | None => ret params
    end ;;
  params <-
    match query with
    | Some q =>
        if truthy_opt query then
          log_verbose ("Using query: " ++ q) ;;; ret (params ++ [("query", q)])%list
        else ret params
    | None => ret params
    end ;;
  let headers := [("Authorization", "Client-ID " ++ api_key)] in
  log_verbose ("Fetching from Unsplash API: " ++ url) ;;;
  retry_request E (JStr url) 3 30 (Some headers) (Some params).

(** The pair to send for an optional argument: nothing when it is [None]
    or empty. *)
Definition optional_param (name : string) (value : option string) : list (string * string) :=
  match value with
  | Some v => if truthy_opt value then [(name, v)] else []
  | None => []
  end.

(** The request that [download_unsplash] sends to the API. *)
Definition unsplash_request (api_key : string) (topic query : option string) : request :=
  mkRequest (JStr "https://api.unsplash.com/photos/random") 30 true
    (Some [("Authorization", "Client-ID " ++ api_key)])
    (Some ([("orientation", "landscape")] ++ optional_param "topics" topic
           ++ optional_param "query" query)%list).

(** The events of [download_unsplash]: its GET requests are the request to
    the API, or carry no headers (the request for the picture). *)
Definition unsplash_event (api_key : string) (topic query : option string) (ev : event)
  : Prop :=
  match ev with
  | EGet rq => rq = unsplash_request api_key topic query \/ req_headers rq = None
  | _ => True
  end.

(** Answers of Unsplash: a photo with the regular size only; a photo
    without URLs. *)
Definition env_unsplash_regular : env :=
  sample_env
    (fun n _ =>
       match n with
       | O => Responds (json_response
                          (JObj [("urls", JObj [("regular", JStr "https://images.unsplash.com/photo-2")]);
                                 ("user", JObj [("name", JStr "Ann")])]))
       | _ => Responds (ok_response (Some "image/jpeg") "JPEG" None)
       end)
    (fun _ => "/photo-2").

Definition env_unsplash_no_urls : env :=
  sample_env (fun _ _ => Responds (json_response (JObj [("id", JStr "abc")])))
             (fun _ => "/").

(** Unfolds one iteration of the retry loop down to the world. *)
Ltac unfold_attempt :=
  unfold retry_attempt, try_except, bind, log_verbose, print, time_sleep, emit,
    requests_get, raise_for_status, raise, ret.

(** * Properties *)

(** ** The retry loop *)

Section Retry.

Variable E : env.
Variables (url : json) (max_retries timeout : Z) (headers params : option headers_t).

Let rq := mkRequest url timeout true headers params.
Let body := retry_attempt E url max_retries timeout headers params.

Lemma sleeps_app l1 l2 : sleeps (l1 ++ l2) = (sleeps l1 ++ sleeps l2)%list.
Proof. apply flat_map_app. Qed.

Lemma gets_app l1 l2 : gets (l1 ++ l2) = (gets l1 ++ gets l2)%list.
Proof. apply flat_map_app. Qed.

(** A failed attempt that is not the last one: one GET, one sleep, and the
    loop goes on. *)
Lemma retry_attempt_fails attempt w e :
  attempt_result E (clock w) rq = Raise e ->
  is_RequestException e = true ->
  (attempt =? max_retries - 1) = false ->
  exists d,
    body attempt w = (Ret None, mkWorld (VERBOSE w) (S (clock w)) (log w ++ d)) /\
    sleeps d = [2 ^ attempt] /\ gets d = [rq].
Proof.
  intros Hr He Ha. subst body rq. destruct w as [v c l].
  unfold attempt_result in Hr. simpl in Hr.
  destruct (http_get E c _) as [r|e0] eqn:Hg;
    [ destruct (is_error_status r) eqn:Hs; [|discriminate] | ];
    injection Hr as <-; unfold_attempt;
    destruct v; simpl; rewrite Hg; simpl; try rewrite Hs; simpl;
    try rewrite He; rewrite Ha; simpl;
    eexists; (split; [ rewrite <- !app_assoc; simpl; reflexivity | split; reflexivity ]).
Qed.

(** A failed last attempt: one GET, no sleep, and the failure of this
    attempt is raised again. *)
Lemma retry_attempt_last_fails attempt w e :
  attempt_result E (clock w) rq = Raise e ->
  is_RequestException e = true ->
  (attempt =? max_retries - 1) = true ->
  exists d,
    body attempt w = (Raise e, mkWorld (VERBOSE w) (S (clock w)) (log w ++ d)) /\
    sleeps d = [] /\ gets d = [rq].
Proof.
  intros Hr He Ha. subst body rq. destruct w as [v c l].
  unfold attempt_result in Hr. simpl in Hr.
  destruct (http_get E c _) as [r|e0] eqn:Hg;
    [ destruct (is_error_status r) eqn:Hs; [|discriminate] | ];
    injection Hr as <-; unfold_attempt;
    destruct v; simpl; rewrite Hg; simpl; try rewrite Hs; simpl;
    try rewrite He; rewrite Ha; simpl;
    eexists; (split; [ rewrite <- ?app_assoc; simpl; reflexivity | split; reflexivity ]).
Qed.

(** A successful attempt: the GET is the last thing that happens, and the
    function returns its response. *)
Lemma retry_attempt_succeeds attempt w r :
  attempt_result E (clock w) rq = Ret r ->
  exists d,
    body attempt w
      = (Ret (Some r), mkWorld (VERBOSE w) (S (clock w)) (log w ++ d ++ [EGet rq])) /\
    sleeps d = [] /\ gets d = [].
Proof.
  intros Hr. subst body rq. destruct w as [v c l].
  unfold attempt_result in Hr. simpl in Hr.
  destruct (http_get E c _) as [r0|e0] eqn:Hg; [|discriminate].
  destruct (is_error_status r0) eqn:Hs; [discriminate|].
  injection Hr as <-. unfold_attempt.
  destruct v; simpl; rewrite Hg; simpl; rewrite Hs; simpl.
  - exists [EPrint Stdout
              ("[INFO] " ++ "Fetching " ++ py_str E url ++ " (attempt " ++
               Str.of_Z (attempt + 1) ++ "/" ++ Str.of_Z max_retries ++ ")")].
    rewrite <- app_assoc. repeat split.
  - exists []. repeat split.
Qed.

(** The last iteration never lets the loop go on. *)
Lemma retry_attempt_last_leaves attempt w :
  (attempt =? max_retries - 1) = true -> fst (body attempt w) <> Ret None.
Proof.
  intros Ha. subst body. destruct w as [v c l]. unfold_attempt.
  destruct v; simpl;
    (destruct (http_get E c _) as [r|e0]; simpl;
     [ destruct (is_error_status r); simpl; [rewrite Ha|]; simpl; discriminate
     | destruct (is_RequestException e0); simpl; [rewrite Ha|]; simpl; discriminate ]).
Qed.

(** The loop ends without a result only when every iteration did. *)
Lemma for_attempts_none {A} (f : Z -> M (option A)) attempts :
  forall w, fst (for_attempts f attempts w) = Ret None ->
  forall a, In a attempts -> exists w', fst (f a w') = Ret None.
Proof.
  induction attempts as [|a0 rest IH]; intros w H a Hin; [contradiction|].
  simpl in H. unfold bind in H.
  destruct (f a0 w) as [[[x|]|e] w1] eqn:Hf; simpl in H; try discriminate.
  destruct Hin as [<-|Hin].
  - exists w. now rewrite Hf.
  - now apply (IH w1).
Qed.

(** [N] failures, then a success: the loop sleeps 2^k, 2^(k+1), ... and
    returns at the successful GET. *)
Lemma for_attempts_backoff r :
  forall (N k n : nat) w,
    (N < n)%nat ->
    Z.of_nat (k + N) <= max_retries - 1 ->
    (forall i, (i < N)%nat -> attempt_fails E (clock w + i) rq) ->
    attempt_result E (clock w + N) rq = Ret r ->
    exists d,
      for_attempts body (map Z.of_nat (seq k n)) w
        = (Ret (Some r), mkWorld (VERBOSE w) (clock w + S N) (log w ++ d ++ [EGet rq])) /\
      sleeps d = map (fun i => 2 ^ Z.of_nat i) (seq k N) /\
      gets d = repeat rq N.
Proof.
  induction N as [|N IH]; intros k n w Hn Hk Hfail Hok.
  - destruct n as [|n]; [lia|]. simpl.
    rewrite Nat.add_0_r in Hok.
    destruct (retry_attempt_succeeds (Z.of_nat k) w r Hok) as (d & Hrun & Hs & Hg).
    exists d. unfold bind. rewrite Hrun. unfold ret.
    rewrite Nat.add_1_r. auto.
  - destruct n as [|n]; [lia|]. simpl.
    destruct (Hfail 0%nat ltac:(lia)) as (e & He & Hreq).
    rewrite Nat.add_0_r in He.
    assert (Ha : (Z.of_nat k =? max_retries - 1) = false) by (apply Z.eqb_neq; lia).
    destruct (retry_attempt_fails (Z.of_nat k) w e He Hreq Ha) as (d1 & Hrun & Hs1 & Hg1).
    unfold bind at 1. rewrite Hrun.
    set (w1 := mkWorld (VERBOSE w) (S (clock w)) (log w ++ d1)).
    destruct (IH (S k) n w1) as (d2 & Hrun2 & Hs2 & Hg2).
    + lia.
    + lia.
    + intros i Hi. simpl. replace (S (clock w + i)) with (clock w + S i)%nat by lia.
      apply Hfail. lia.
    + simpl. replace (S (clock w + N)) with (clock w + S N)%nat by lia. exact Hok.
    + exists (d1 ++ d2)%list. rewrite Hrun2. simpl.
      replace (S (clock w + S N)) with (clock w + S (S N))%nat by lia.
      rewrite <- !app_assoc. split; [reflexivity|].
      rewrite sleeps_app, gets_app, Hs1, Hs2, Hg1, Hg2. split; reflexivity.
Qed.

(** Failures up to the last attempt included: the loop sleeps between
    the attempts and raises the failure of the last one. *)
Lemma for_attempts_exhausted :
  forall (n k : nat) w,
    Z.of_nat (k + n) = max_retries - 1 ->
    (forall i, (i < S n)%nat -> attempt_fails E (clock w + i) rq) ->
    exists e d,
      attempt_result E (clock w + n) rq = Raise e /\
      for_attempts body (map Z.of_nat (seq k (S n))) w
        = (Raise e, mkWorld (VERBOSE w) (clock w + S n) (log w ++ d)) /\
      sleeps d = map (fun i => 2 ^ Z.of_nat i) (seq k n) /\
      gets d = repeat rq (S n).
Proof.
  induction n as [|n IH]; intros k w Hk Hfail.
  - destruct (Hfail 0%nat ltac:(lia)) as (e & He & Hreq).
    assert (Ha : (Z.of_nat k =? max_retries - 1) = true) by (apply Z.eqb_eq; lia).
    pose proof He as He'. rewrite Nat.add_0_r in He'.
    destruct (retry_attempt_last_fails (Z.of_nat k) w e He' Hreq Ha) as (d & Hrun & Hs & Hg).
    exists e, d. simpl. unfold bind. rewrite Hrun. rewrite Nat.add_1_r. auto.
  - destruct (Hfail 0%nat ltac:(lia)) as (e & He & Hreq).
    rewrite Nat.add_0_r in He.
    assert (Ha : (Z.of_nat k =? max_retries - 1) = false) by (apply Z.eqb_neq; lia).
    destruct (retry_attempt_fails (Z.of_nat k) w e He Hreq Ha) as (d1 & Hrun & Hs1 & Hg1).
    set (w1 := mkWorld (VERBOSE w) (S (clock w)) (log w ++ d1)).
    destruct (IH (S k) w1) as (e2 & d2 & Hlast & Hrun2 & Hs2 & Hg2).
    + lia.
    + intros i Hi. simpl. replace (S (clock w + i)) with (clock w + S i)%nat by lia.
      apply Hfail. lia.
    + exists e2, (d1 ++ d2)%list. split.
      * simpl in Hlast. replace (clock w + S n)%nat with (S (clock w + n)) by lia. exact Hlast.
      * change (map Z.of_nat (seq k (S (S n))))
          with (Z.of_nat k :: map Z.of_nat (seq (S k) (S n))).
        cbn [for_attempts]. unfold bind at 1. rewrite Hrun. fold w1. rewrite Hrun2. simpl.
        replace (S (clock w + S n)) with (clock w + S (S n))%nat by lia.
        rewrite <- !app_assoc. split; [reflexivity|].
        rewrite sleeps_app, gets_app, Hs1, Hs2, Hg1, Hg2. split; reflexivity.
Qed.

End Retry.

Lemma range_seq (n : Z) : range n = map Z.of_nat (seq 0 (Z.to_nat n)).
Proof. reflexivity. Qed.

Lemma repeat_snoc {A} (x : A) n : (repeat x n ++ [x])%list = repeat x (S n).
Proof. induction n as [|n IH]; simpl; [reflexivity | now rewrite IH]. Qed.

(** C1. When the first [N] GET attempts fail and attempt [N+1] succeeds,
    with [N <= max_retries - 1], [retry_request] returns the response of
    the successful attempt; it has made [N+1] GET requests and slept
    [N] times, for 2^0, 2^1, ..., 2^(N-1) seconds in this order; the
    successful GET is the last event of the call. *)
Theorem retry_request_backoff (E : env) (url : json) (max_retries timeout : Z)
    (headers params : option headers_t) (N : nat) (r : response) (w : world) :
  Z.of_nat N <= max_retries - 1 ->
  (forall i, (i < N)%nat ->
     attempt_fails E (clock w + i) (mkRequest url timeout true headers params)) ->
  attempt_result E (clock w + N) (mkRequest url timeout true headers params) = Ret r ->
  exists d,
    retry_request E url max_retries timeout headers params w
      = (Ret r,
         mkWorld (VERBOSE w) (clock w + S N)
           (log w ++ d ++ [EGet (mkRequest url timeout true headers params)])) /\
    sleeps (d ++ [EGet (mkRequest url timeout true headers params)]) = backoff N /\
    gets (d ++ [EGet (mkRequest url timeout true headers params)])
      = repeat (mkRequest url timeout true headers params) (S N).
Proof.
  intros HN Hfail Hok.
  destruct (for_attempts_backoff E url max_retries timeout headers params r
              N 0%nat (Z.to_nat max_retries) w) as (d & Hrun & Hs & Hg);
    [lia | simpl; lia | exact Hfail | exact Hok |].
  exists d. unfold retry_request, retry_loop, bind. rewrite range_seq, Hrun.
  split; [reflexivity|].
  rewrite sleeps_app, gets_app, Hs, Hg. simpl.
  rewrite app_nil_r, repeat_snoc. split; reflexivity.
Qed.

Lemma retry_request_backoff_witness :
  exists d,
    retry_request env_two_timeouts (JStr "http://a") 3 30 None None initial_world
      = (Ret (ok_response (Some "image/png") "PNG" None),
         mkWorld false 3 (d ++ [EGet sample_request])) /\
    sleeps (d ++ [EGet sample_request]) = [1; 2] /\
    gets (d ++ [EGet sample_request]) = [sample_request; sample_request; sample_request].
Proof.
  apply (retry_request_backoff env_two_timeouts (JStr "http://a") 3 30 None None 2
           (ok_response (Some "image/png") "PNG" None) initial_world).
  - lia.
  - intros i Hi. exists (RequestException "timed out").
    destruct i as [|[|i]]; [split; reflexivity | split; reflexivity | lia].
  - reflexivity.
Defined.

(** C2, as the code has it. When all [max_retries >= 1] GET attempts fail,
    [retry_request] raises the failure of the last attempt (no response is
    returned), after [max_retries] GET requests and [max_retries - 1]
    backoff sleeps. *)
Theorem retry_request_exhausted (E : env) (url : json) (max_retries timeout : Z)
    (headers params : option headers_t) (w : world) :
  1 <= max_retries ->
  (forall i, (i < Z.to_nat max_retries)%nat ->
     attempt_fails E (clock w + i) (mkRequest url timeout true headers params)) ->
  exists e d,
    attempt_result E (clock w + (Z.to_nat max_retries - 1))
      (mkRequest url timeout true headers params) = Raise e /\
    retry_request E url max_retries timeout headers params w
      = (Raise e, mkWorld (VERBOSE w) (clock w + Z.to_nat max_retries) (log w ++ d)) /\
    sleeps d = backoff (Z.to_nat max_retries - 1) /\
    gets d = repeat (mkRequest url timeout true headers params) (Z.to_nat max_retries).
Proof.
  intros Hm Hfail.
  destruct (Z.to_nat max_retries) as [|n] eqn:Hn; [lia|].
  destruct (for_attempts_exhausted E url max_retries timeout headers params n 0%nat w)
    as (e & d & Hlast & Hrun & Hs & Hg); [simpl; lia | exact Hfail |].
  exists e, d. replace (S n - 1)%nat with n by lia.
  split; [exact Hlast|].
  unfold retry_request, retry_loop, bind. rewrite range_seq, Hn, Hrun.
  repeat split; assumption.
Qed.

Lemma retry_request_exhausted_witness :
  exists e d,
    attempt_result env_two_failures 1 sample_request = Raise e /\
    retry_request env_two_failures (JStr "http://a") 2 30 None None initial_world
      = (Raise e, mkWorld false 2 d) /\
    sleeps d = [1] /\ gets d = [sample_request; sample_request].
Proof.
  apply (retry_request_exhausted env_two_failures (JStr "http://a") 2 30 None None
           initial_world).
  - lia.
  - intros i Hi.
    destruct i as [|[|i]];
      [ exists (RequestException "first"); split; reflexivity
      | exists (RequestException "second"); split; reflexivity
      | simpl in Hi; lia ].
Defined.

(** C2, as the claim states it, fails: with two attempts that fail with
    different errors, the error raised is the second one, not the first. *)
Lemma retry_request_raises_last_failure :
  attempt_result env_two_failures 0 sample_request = Raise (RequestException "first") /\
  attempt_result env_two_failures 1 sample_request = Raise (RequestException "second") /\
  fst (retry_request env_two_failures (JStr "http://a") 2 30 None None initial_world)
    = Raise (RequestException "second") /\
  fst (retry_request env_two_failures (JStr "http://a") 2 30 None None initial_world)
    <> Raise (RequestException "first").
Proof. repeat split; try reflexivity. discriminate. Qed.

(** C10. With [max_retries = 0], [retry_request] makes no HTTP attempt (the
    world is unchanged) and raises [RequestException("Max retries exceeded")];
    with [max_retries >= 1] the loop never runs to its end, so the [raise]
    after it is not reached. *)
Theorem retry_request_zero_retries (E : env) (url : json) (timeout : Z)
    (headers params : option headers_t) (w : world) :
  retry_request E url 0 timeout headers params w
    = (Raise (RequestException "Max retries exceeded"), w) /\
  (forall max_retries, 1 <= max_retries ->
     fst (retry_loop E url max_retries timeout headers params w) <> Ret None).
Proof.
  split; [reflexivity|].
  intros max_retries Hm Hnone.
  destruct (for_attempts_none _ _ w Hnone (max_retries - 1)) as (w' & Hw').
  - unfold range. apply in_map_iff. exists (Z.to_nat (max_retries - 1)).
    split; [lia | apply in_seq; lia].
  - revert Hw'. apply retry_attempt_last_leaves. apply Z.eqb_refl.
Qed.

Lemma retry_request_zero_retries_witness :
  1 <= 3 /\
  fst (retry_loop env_two_failures (JStr "http://a") 3 30 None None initial_world)
    <> Ret None.
Proof.
  split; [lia|].
  apply (proj2 (retry_request_zero_retries env_two_failures (JStr "http://a") 30 None None
                  initial_world)).
  lia.
Defined.

(** ** Strings *)

Lemma length_app (a b : string) :
  String.length (a ++ b) = (String.length a + String.length b)%nat.
Proof. induction a as [|c a IH]; simpl; [reflexivity | now rewrite IH]. Qed.

Lemma lower_length (s : string) : String.length (Str.lower s) = String.length s.
Proof. induction s as [|c s IH]; simpl; [reflexivity | now rewrite IH]. Qed.

Lemma lower_app (a b : string) : Str.lower (a ++ b) = Str.lower a ++ Str.lower b.
Proof. induction a as [|c a IH]; simpl; [reflexivity | now rewrite IH]. Qed.

Lemma take_drop (n : nat) (s : string) : Str.take n s ++ Str.drop n s = s.
Proof.
  revert s. induction n as [|n IH]; intros [|c s]; simpl; try reflexivity.
  now rewrite IH.
Qed.

Lemma take_length (n : nat) (s : string) :
  (n <= String.length s)%nat -> String.length (Str.take n s) = n.
Proof.
  revert s. induction n as [|n IH]; intros [|c s] H; simpl in *; try reflexivity; try lia.
  rewrite IH; lia.
Qed.

Lemma take_all (n : nat) (s : string) : (String.length s <= n)%nat -> Str.take n s = s.
Proof.
  revert s. induction n as [|n IH]; intros [|c s] H; simpl in *; try reflexivity; try lia.
  rewrite IH; [reflexivity | lia].
Qed.

Lemma take_app (a b : string) : Str.take (String.length a) (a ++ b) = a.
Proof. induction a as [|c a IH]; simpl; [now destruct b | now rewrite IH]. Qed.

Lemma drop_app (a b : string) : Str.drop (String.length a) (a ++ b) = b.
Proof. induction a as [|c a IH]; simpl; [now destruct b | exact IH]. Qed.

Lemma drop_app_le (n : nat) (a b : string) :
  (n <= String.length a)%nat -> Str.drop n (a ++ b) = Str.drop n a ++ b.
Proof.
  revert a. induction n as [|n IH]; intros [|c a] H; simpl in *; try lia.
  - now destruct b.
  - reflexivity.
  - apply IH. lia.
Qed.

Lemma drop_length (n : nat) (s : string) :
  String.length (Str.drop n s) = (String.length s - n)%nat.
Proof.
  revert s. induction n as [|n IH]; intros [|c s]; simpl; try reflexivity; try lia.
  apply IH.
Qed.

Lemma drop_lower (n : nat) (s : string) : Str.drop n (Str.lower s) = Str.lower (Str.drop n s).
Proof. revert s. induction n as [|n IH]; intros [|c s]; simpl; try reflexivity. apply IH. Qed.

Lemma drop_0 (s : string) : Str.drop 0 s = s.
Proof. now destruct s. Qed.

Lemma substring_take_drop (n m : nat) (s : string) :
  substring n m s = Str.take m (Str.drop n s).
Proof.
  revert n m. induction s as [|c s IH]; intros n m.
  - destruct n, m; reflexivity.
  - destruct n as [|n]; simpl.
    + destruct m as [|m]; [reflexivity|].
      now rewrite (IH 0%nat m), drop_0.
    + apply IH.
Qed.

(** A string that ends, up to case, in [sfx] splits into what comes
    before and an ending that lowers to [sfx]. *)
Lemma endswith_lower_split (sfx p : string) :
  Str.endswith sfx (Str.lower p) = true ->
  exists a e, p = a ++ e /\ Str.lower e = sfx.
Proof.
  unfold Str.endswith. intros H. apply andb_prop in H as [Hlen Heq].
  apply Nat.leb_le in Hlen. apply String.eqb_eq in Heq.
  rewrite lower_length in *.
  set (n := (String.length p - String.length sfx)%nat) in *.
  exists (Str.take n p), (Str.drop n p). split; [now rewrite take_drop|].
  rewrite substring_take_drop, drop_lower in Heq.
  rewrite take_all in Heq; [exact Heq|].
  rewrite lower_length, drop_length. lia.
Qed.

Lemma has_char_app (c : ascii) (a b : string) :
  Str.has_char c (a ++ b) = Str.has_char c a || Str.has_char c b.
Proof.
  induction a as [|x a IH]; simpl; [reflexivity|].
  now rewrite IH, orb_assoc.
Qed.

Lemma contains_char (c : ascii) (s : string) :
  Str.contains (String c "") s = Str.has_char c s.
Proof.
  induction s as [|x s IH]; simpl; [reflexivity|].
  now rewrite IH, andb_true_r, Ascii.eqb_sym.
Qed.

Lemma lower_char_dot (c : ascii) :
  Ascii.eqb (Str.lower_char c) "." = Ascii.eqb c ".".
Proof. destruct c as [[] [] [] [] [] [] [] []]; reflexivity. Qed.

Lemma lower_char_slash (c : ascii) :
  Ascii.eqb (Str.lower_char c) "/" = Ascii.eqb c "/".
Proof. destruct c as [[] [] [] [] [] [] [] []]; reflexivity. Qed.

Lemma has_dot_lower (s : string) : Str.has_char "." (Str.lower s) = Str.has_char "." s.
Proof. induction s as [|c s IH]; simpl; [reflexivity | now rewrite IH, lower_char_dot]. Qed.

Lemma has_slash_lower (s : string) : Str.has_char "/" (Str.lower s) = Str.has_char "/" s.
Proof. induction s as [|c s IH]; simpl; [reflexivity | now rewrite IH, lower_char_slash]. Qed.

Lemma rfind_from_absent (c : ascii) (s : string) :
  Str.has_char c s = false -> forall i acc, Str.rfind_from c s i acc = acc.
Proof.
  induction s as [|x s IH]; simpl; intros H i acc; [reflexivity|].
  apply orb_false_iff in H as [Hx Hs]. rewrite Hx. now apply IH.
Qed.

Lemma rfind_from_app (c : ascii) (a b : string) :
  forall i acc,
    Str.rfind_from c (a ++ b) i acc
    = Str.rfind_from c b (i + Z.of_nat (String.length a)) (Str.rfind_from c a i acc).
Proof.
  induction a as [|x a IH]; simpl String.length; intros i acc.
  - simpl. now rewrite Z.add_0_r.
  - simpl. rewrite IH. f_equal. lia.
Qed.

Lemma rfind_from_bounds (c : ascii) (s : string) :
  forall i acc, acc < i ->
    acc <= Str.rfind_from c s i acc < i + Z.of_nat (String.length s).
Proof.
  induction s as [|x s IH]; simpl String.length; intros i acc H; simpl.
  - lia.
  - destruct (Ascii.eqb x c).
    + specialize (IH (i + 1) i ltac:(lia)). lia.
    + specialize (IH (i + 1) acc ltac:(lia)). lia.
Qed.

(** Every recognized suffix is a dot followed by letters. *)
Lemma image_suffix_shape (sfx : string) :
  In sfx image_suffixes ->
  exists letters,
    sfx = String "." letters /\
    Str.has_char "." letters = false /\ Str.has_char "/" letters = false.
Proof.
  intros H. repeat (destruct H as [<-|H]; [eexists; repeat split|]). contradiction.
Qed.

(** [splitext] on a path that ends, up to case, in a recognized suffix
    preceded in the file name by a character that is not a dot. *)
Lemma splitext_recognized (p sfx : string) :
  In sfx image_suffixes ->
  Str.endswith sfx (Str.lower p) = true ->
  has_stem p (String.length sfx) = true ->
  Str.has_char "." p = true /\ Str.lower (snd (splitext p)) = sfx.
Proof.
  intros Hin Hends Hstem.
  destruct (image_suffix_shape sfx Hin) as (letters & -> & Hnodot & Hnoslash).
  destruct (endswith_lower_split _ _ Hends) as (a & e & -> & Hlow).
  destruct e as [|c0 e]; [discriminate|]. simpl in Hlow.
  injection Hlow as Hc0 He.
  assert (c0 = "."%char) as ->.
  { apply Ascii.eqb_eq. rewrite <- lower_char_dot, Hc0. reflexivity. }
  assert (Hd : Str.has_char "." e = false) by (now rewrite <- has_dot_lower, He).
  assert (Hs : Str.has_char "/" e = false) by (now rewrite <- has_slash_lower, He).
  assert (Hlen : String.length e = String.length letters) by (now rewrite <- He, lower_length).
  split.
  { rewrite has_char_app. simpl. now rewrite orb_true_r. }
  assert (Hdot : Str.rfind "." (a ++ String "." e) = Z.of_nat (String.length a)).
  { unfold Str.rfind. rewrite rfind_from_app. simpl. now rewrite rfind_from_absent. }
  assert (Hsep : Str.rfind "/" (a ++ String "." e) = Str.rfind "/" a).
  { unfold Str.rfind. rewrite rfind_from_app. simpl. now rewrite rfind_from_absent. }
  pose proof (rfind_from_bounds "/" a 0 (-1) ltac:(lia)) as Hb.
  fold (Str.rfind "/" a) in Hb.
  set (fi := Z.to_nat (Str.rfind "/" a + 1)).
  assert (Hfi : (fi <= String.length a)%nat) by (subst fi; lia).
  assert (Hbefore :
    Str.take (String.length a - fi) (Str.drop fi (a ++ String "." e)) = Str.drop fi a).
  { rewrite drop_app_le by exact Hfi.
    rewrite <- (drop_length fi a). apply take_app. }
  unfold has_stem, basename in Hstem. rewrite Hsep in Hstem. fold fi in Hstem.
  rewrite drop_app_le in Hstem by exact Hfi.
  rewrite length_app in Hstem. simpl String.length in Hstem.
  replace (String.length (Str.drop fi a) + S (String.length e) - S (String.length letters))%nat
    with (String.length (Str.drop fi a)) in Hstem by lia.
  rewrite take_app in Hstem. apply negb_true_iff in Hstem.
  unfold splitext. rewrite Hdot, Hsep. fold fi.
  replace (Str.rfind "/" a <? Z.of_nat (String.length a)) with true
    by (symmetry; apply Z.ltb_lt; lia).
  rewrite Nat2Z.id, Hbefore, Hstem. simpl snd.
  rewrite drop_app. simpl. now rewrite He.
Qed.

(** ** The extension detector *)

Lemma in_list_In (s : string) (l : list string) : in_list s l = true -> In s l.
Proof.
  unfold in_list. intros H. apply existsb_exists in H as (x & Hx & Heq).
  apply String.eqb_eq in Heq. now subst.
Qed.

Lemma In_in_list (s : string) (l : list string) : In s l -> in_list s l = true.
Proof.
  unfold in_list. intros H. apply existsb_exists. exists s. split; [exact H|].
  apply String.eqb_refl.
Qed.

Lemma extension_of_content_type_recognized (content_type : option string) :
  In (extension_of_content_type content_type) image_suffixes.
Proof.
  unfold extension_of_content_type, image_suffixes.
  destruct content_type as [ct|]; [|simpl; tauto].
  destruct (truthy_opt (Some ct)); [|simpl; tauto].
  destruct (Str.contains "jpeg" (Str.lower ct) || Str.contains "jpg" (Str.lower ct));
    [simpl; tauto|].
  destruct (Str.contains "png" (Str.lower ct)); [simpl; tauto|].
  destruct (Str.contains "gif" (Str.lower ct)); [simpl; tauto|].
  destruct (Str.contains "webp" (Str.lower ct)); simpl; tauto.
Qed.

(** C3, as the code has it. [detect_extension] always returns one of the
    five suffixes; and when the path of the URL ends, up to case, in one of
    them, and the file name has a character other than a dot before it,
    that suffix (in lower case) is returned whatever the content type. *)
Theorem detect_extension_recognized (E : env) (url : string) (content_type : option string) :
  In (detect_extension E url content_type) image_suffixes /\
  (forall sfx,
     In sfx image_suffixes ->
     Str.endswith sfx (Str.lower (urlparse_path E url)) = true ->
     has_stem (urlparse_path E url) (String.length sfx) = true ->
     detect_extension E url content_type = sfx).
Proof.
  split.
  - unfold detect_extension.
    destruct (Str.contains "." (urlparse_path E url));
      [|apply extension_of_content_type_recognized].
    destruct (in_list _ image_suffixes) eqn:Hext;
      [now apply in_list_In | apply extension_of_content_type_recognized].
  - intros sfx Hin Hends Hstem.
    destruct (splitext_recognized _ _ Hin Hends Hstem) as [Hdot Hext].
    unfold detect_extension.
    change "."%string with (String "."%char "") at 1.
    rewrite contains_char, Hdot, Hext, (In_in_list _ _ Hin). reflexivity.
Qed.

Lemma detect_extension_recognized_witness :
  In ".png" image_suffixes /\
  Str.endswith ".png" (Str.lower (urlparse_path env_upper_png "https://example.com/media/Photo.PNG"))
    = true /\
  has_stem (urlparse_path env_upper_png "https://example.com/media/Photo.PNG") 4 = true /\
  detect_extension env_upper_png "https://example.com/media/Photo.PNG" (Some "image/gif")
    = ".png".
Proof.
  split; [simpl; tauto|]. split; [reflexivity|]. split; [reflexivity|].
  apply (proj2 (detect_extension_recognized env_upper_png
                  "https://example.com/media/Photo.PNG" (Some "image/gif")) ".png").
  - simpl; tauto.
  - reflexivity.
  - reflexivity.
Defined.

(** C3, as the claim states it, fails: the path [/.png] ends in [.png],
    yet with the content type [image/gif] the detector returns [.gif]. *)
Lemma detect_extension_dotfile :
  urlparse_path env_dotfile "https://example.com/.png" = "/.png" /\
  Str.endswith ".png" (Str.lower (urlparse_path env_dotfile "https://example.com/.png"))
    = true /\
  splitext "/.png" = ("/.png", "") /\
  detect_extension env_dotfile "https://example.com/.png" (Some "image/gif") = ".gif".
Proof. repeat split. Qed.

(** ** What a computation adds to the log *)

Section Emits.

Variable P : event -> Prop.
Hypothesis Pprint : forall s msg, P (EPrint s msg).
Hypothesis Psleep : forall z, P (ESleep z).

Lemma emits_ret {A} (a : A) : emits P (ret a).
Proof. intros w. exists []. simpl. now rewrite app_nil_r. Qed.

Lemma emits_raise {A} (e : exn) : emits P (@raise A e).
Proof. intros w. exists []. simpl. now rewrite app_nil_r. Qed.

Lemma emits_lift {A} (r : result A) : emits P (lift r).
Proof. intros w. exists []. simpl. now rewrite app_nil_r. Qed.

Lemma emits_emit (evs : list event) : Forall P evs -> emits P (emit evs).
Proof. intros H w. exists evs. now simpl. Qed.

Lemma emits_bind {A B} (m : M A) (k : A -> M B) :
  emits P m -> (forall a, emits P (k a)) -> emits P (bind m k).
Proof.
  intros Hm Hk w. unfold bind.
  destruct (Hm w) as (d1 & H1 & F1).
  destruct (m w) as [[a|e] w1]; simpl in *.
  - destruct (Hk a w1) as (d2 & H2 & F2).
    exists (d1 ++ d2)%list. rewrite H2, H1, app_assoc. split; [reflexivity|].
    now apply Forall_app.
  - now exists d1.
Qed.

Lemma emits_try_except {A} (m : M A) (catches : exn -> bool) (handler : exn -> M A) :
  emits P m -> (forall e, emits P (handler e)) -> emits P (try_except m catches handler).
Proof.
  intros Hm Hh w. unfold try_except.
  destruct (Hm w) as (d1 & H1 & F1).
  destruct (m w) as [[a|e] w1]; simpl in *.
  - now exists d1.
  - destruct (catches e); [|now exists d1].
    destruct (Hh e w1) as (d2 & H2 & F2).
    exists (d1 ++ d2)%list. rewrite H2, H1, app_assoc. split; [reflexivity|].
    now apply Forall_app.
Qed.

Lemma emits_print (s : stream) (msg : string) : emits P (print s msg).
Proof. apply emits_emit. auto. Qed.

Lemma emits_log_verbose (msg : string) : emits P (log_verbose msg).
Proof.
  intros w. unfold log_verbose. destruct (VERBOSE w).
  - apply emits_print.
  - exists []. simpl. now rewrite app_nil_r.
Qed.

Lemma emits_time_sleep (z : Z) : emits P (time_sleep z).
Proof. apply emits_emit. auto. Qed.

Lemma emits_requests_get (E : env) (rq : request) :
  P (EGet rq) -> emits P (requests_get E rq).
Proof.
  intros H w. exists [EGet rq]. unfold requests_get.
  destruct (http_get E (clock w) rq); simpl; auto.
Qed.

Lemma emits_raise_for_status (r : response) : emits P (raise_for_status r).
Proof.
  unfold raise_for_status. destruct (is_error_status r); [apply emits_raise | apply emits_ret].
Qed.

Lemma emits_response_json (r : response) : emits P (response_json r).
Proof.
  unfold response_json. destruct (json_body r); [apply emits_ret | apply emits_raise].
Qed.

Lemma emits_for_attempts {A} (f : Z -> M (option A)) (attempts : list Z) :
  (forall a, emits P (f a)) -> emits P (for_attempts f attempts).
Proof.
  intros Hf. induction attempts as [|a rest IH]; simpl; [apply emits_ret|].
  apply emits_bind; [apply Hf|]. intros [x|]; [apply emits_ret | exact IH].
Qed.

Lemma emits_retry_request (E : env) (url : json) (max_retries timeout : Z)
    (headers params : option headers_t) :
  P (EGet (mkRequest url timeout true headers params)) ->
  emits P (retry_request E url max_retries timeout headers params).
Proof.
  intros Hget. unfold retry_request, retry_loop.
  apply emits_bind; [|intros [r|]; [apply emits_ret | apply emits_raise]].
  apply emits_for_attempts. intros attempt. unfold retry_attempt.
  apply emits_try_except.
  - apply emits_bind; [apply emits_log_verbose|]. intros _.
    apply emits_bind; [now apply emits_requests_get|]. intros r.
    apply emits_bind; [apply emits_raise_for_status|]. intros _. apply emits_ret.
  - intros e. destruct (attempt =? max_retries - 1); [apply emits_raise|].
    apply emits_bind; [apply emits_log_verbose|]. intros _.
    apply emits_bind; [apply emits_time_sleep|]. intros _. apply emits_ret.
Qed.

Lemma emits_mkdir (E : env) (p : Pathlib.path) :
  (forall s, P (EMkdir s)) -> emits P (mkdir E p).
Proof.
  intros H. unfold mkdir. destruct (fs_mkdir E _); [apply emits_raise|].
  apply emits_emit. auto.
Qed.

Lemma emits_write_file (E : env) (p : Pathlib.path) (data : string) :
  (forall s, P (EWrite s data)) -> emits P (write_file E p data).
Proof.
  intros H. unfold write_file. destruct (fs_write E _ _); [apply emits_raise|].
  apply emits_emit. auto.
Qed.

Lemma emits_call_detect_extension (E : env) (url : json) (ct : option string) :
  emits P (call_detect_extension E url ct).
Proof. destruct url; simpl; first [apply emits_ret | apply emits_raise]. Qed.

End Emits.

Lemma emits_download_and_save (P : event -> Prop) (E : env) (url : json)
    (target_path : string) (headers : option headers_t) :
  (forall s msg, P (EPrint s msg)) -> (forall z, P (ESleep z)) ->
  P (ESaveCall url target_path headers) ->
  P (EGet (mkRequest url 30 true headers None)) ->
  (forall s, P (EMkdir s)) -> (forall s data, P (EWrite s data)) ->
  emits P (download_and_save E url target_path headers).
Proof.
  intros Hp Hs Hc Hg Hm Hw. unfold download_and_save.
  apply emits_bind; [apply emits_emit; repeat constructor; assumption|]. intros _.
  apply emits_bind; [now apply emits_log_verbose|]. intros _.
  apply emits_bind; [now apply emits_retry_request|]. intros response. cbv zeta.
  apply emits_bind.
  - destruct (_ || _); [|apply emits_ret].
    apply emits_bind; [apply emits_call_detect_extension|]. intros ext.
    apply emits_bind; [apply emits_lift|]. intros target.
    apply emits_bind; [now apply emits_log_verbose | intros _; apply emits_ret].
  - intros target.
    apply emits_bind; [now apply emits_mkdir|]. intros _.
    apply emits_bind; [now apply emits_log_verbose|]. intros _.
    apply emits_bind; [now apply emits_write_file|]. intros _.
    apply emits_bind; [now apply emits_print | intros _; apply emits_ret].
Qed.

Tactic Notation "emits_auto" :=
  repeat first
    [ apply emits_ret | apply emits_raise | apply emits_lift | apply emits_log_verbose
    | apply emits_print | apply emits_retry_request | apply emits_response_json
    | apply emits_emit; repeat constructor
    | apply emits_call_detect_extension
    | apply emits_mkdir | apply emits_write_file | apply emits_download_and_save
    | apply emits_bind
    | exact I | reflexivity | progress cbv beta zeta
    | match goal with |- forall _, _ => intro end
    | match goal with
      | |- emits _ (if ?c then _ else _) => destruct c
      | |- emits _ (match ?x with _ => _ end) => destruct x
      end ].

(** [download_and_save] records its call, then sends its GET requests for
    the URL and with the headers it was given. *)
Lemma download_and_save_log (E : env) (url : json) (target_path : string)
    (headers : option headers_t) (w : world) :
  exists d,
    log (snd (download_and_save E url target_path headers w))
      = (log w ++ ESaveCall url target_path headers :: d)%list /\
    Forall (save_event url headers) d.
Proof.
  unfold download_and_save. unfold bind at 1. simpl.
  set (w1 := mkWorld (VERBOSE w) (clock w) (log w ++ [ESaveCall url target_path headers])).
  match goal with |- context [snd (?m w1)] =>
    assert (H : emits (save_event url headers) m) by emits_auto;
    destruct (H w1) as (d & Hd & F)
  end.
  exists d. rewrite Hd. simpl. rewrite <- app_assoc. split; [reflexivity | exact F].
Qed.

(** ** The shape of an adapter's run *)

Lemma run_bind {A} (hm hs : option headers_t) (target : string) (m : M A) (k : A -> M unit) :
  emits (metadata_event hm) m ->
  (forall a, adapter_run hm hs target (k a)) ->
  adapter_run hm hs target (bind m k).
Proof.
  intros Hm Hk w. unfold bind.
  destruct (Hm w) as (d0 & H0 & F0).
  destruct (m w) as [[a|e] w1]; simpl in *.
  - destruct (Hk a w1) as (d1 & d2 & H & F & Hcase).
    exists (d0 ++ d1)%list, d2. rewrite H, H0, <- !app_assoc.
    split; [reflexivity|]. split; [now apply Forall_app | exact Hcase].
  - exists d0, []. rewrite app_nil_r. repeat split; try assumption.
    left. split; [reflexivity | now exists e].
Qed.

Lemma run_raise (hm hs : option headers_t) (target : string) (e : exn) :
  adapter_run hm hs target (raise e).
Proof.
  intros w. exists [], []. simpl. rewrite app_nil_r. repeat split; auto.
  left. split; [reflexivity | now exists e].
Qed.

Lemma run_save (E : env) (hm hs : option headers_t) (target : string) (u : json) :
  truthy u = true ->
  adapter_run hm hs target (download_and_save E u target hs ;;; ret tt).
Proof.
  intros Hu w. destruct (download_and_save_log E u target hs w) as (d & Hd & F).
  exists [], (ESaveCall u target hs :: d). simpl. split.
  - unfold bind. destruct (download_and_save E u target hs w) as [[a|e] w1]; exact Hd.
  - split; [constructor|]. right. now exists u, d.
Qed.

Tactic Notation "run_auto" :=
  repeat first
    [ apply run_raise
    | apply run_save; first [ reflexivity | apply negb_false_iff; assumption ]
    | apply run_bind; [ solve [emits_auto] | intro ]
    | progress cbv beta zeta
    | match goal with
      | |- adapter_run _ _ _ (if ?c then _ else _) => destruct c eqn:?
      end ].

Lemma download_bing_run (E : env) (target : string) :
  adapter_run None None target (download_bing E target).
Proof. unfold download_bing. run_auto. Qed.

Lemma download_nasa_run (E : env) (target api_key : string) :
  adapter_run None None target (download_nasa E target api_key).
Proof. unfold download_nasa. run_auto. Qed.

Lemma download_wikipedia_run (E : env) (target : string) :
  adapter_run (Some wikipedia_headers) (Some wikipedia_headers) target
    (download_wikipedia E target).
Proof. unfold download_wikipedia. run_auto. Qed.

Lemma download_unsplash_run (E : env) (target api_key : string) (topic query : option string) :
  adapter_run (Some [("Authorization", "Client-ID " ++ api_key)]) None target
    (download_unsplash E target api_key topic query).
Proof. unfold download_unsplash. run_auto. Qed.

Lemma save_calls_app l1 l2 : save_calls (l1 ++ l2) = (save_calls l1 ++ save_calls l2)%list.
Proof. apply flat_map_app. Qed.

Lemma save_calls_metadata (h : option headers_t) (d : list event) :
  Forall (metadata_event h) d -> save_calls d = [].
Proof.
  induction 1 as [|ev d Hev _ IH]; [reflexivity|].
  destruct ev; simpl in *; solve [exact IH | contradiction].
Qed.

Lemma save_calls_save (u : json) (h : option headers_t) (d : list event) :
  Forall (save_event u h) d -> save_calls d = [].
Proof.
  induction 1 as [|ev d Hev _ IH]; [reflexivity|].
  destruct ev; simpl in *; solve [exact IH | contradiction].
Qed.

Lemma adapter_run_resolves (hm hs : option headers_t) (target : string) (m : M unit) :
  adapter_run hm hs target m -> resolves_or_fails target m.
Proof.
  intros Hrun w. destruct (Hrun w) as (d1 & d2 & Hlog & F1 & Hcase).
  exists (d1 ++ d2)%list. split; [exact Hlog|].
  rewrite save_calls_app, (save_calls_metadata _ _ F1). simpl.
  destruct Hcase as [(-> & e & He) | (u & d & -> & Hu & F2)].
  - left. split; [reflexivity | now exists e].
  - right. exists u, hs. simpl. now rewrite (save_calls_save _ _ _ F2).
Qed.

(** The Bing adapter builds its URL with an f-string: it is a [str]. *)
Lemma download_bing_url_is_str (E : env) (target : string) :
  emits save_url_is_str (download_bing E target).
Proof.
  unfold download_bing. emits_auto.
Qed.

(** C4, as the code has it. For every adapter and every answer of the
    provider: the adapter raises without calling [download_and_save], or it
    calls it exactly once, on a value that is true in Python (not [None],
    not empty, not zero); hence, when that value is a [str], on a non-empty
    one. The Bing adapter always passes a [str]. *)
Theorem adapters_resolve_or_fail (E : env) (target api_key unsplash_api_key : string)
    (topic query : option string) :
  resolves_or_fails target (download_bing E target) /\
  emits save_url_is_str (download_bing E target) /\
  resolves_or_fails target (download_nasa E target api_key) /\
  resolves_or_fails target (download_wikipedia E target) /\
  resolves_or_fails target (download_unsplash E target unsplash_api_key topic query).
Proof.
  split; [eapply adapter_run_resolves, download_bing_run|].
  split; [apply download_bing_url_is_str|].
  split; [eapply adapter_run_resolves, download_nasa_run|].
  split; [eapply adapter_run_resolves, download_wikipedia_run|].
  eapply adapter_run_resolves, download_unsplash_run.
Qed.

(** C4, as the claim states it, fails: when the APOD answer gives a number
    as [hdurl], the NASA adapter calls [download_and_save] on the number,
    which is no string. *)
Lemma download_nasa_numeric_url :
  save_calls (log (snd (download_nasa env_nasa_numeric "photo" "DEMO_KEY" initial_world)))
    = [(JInt 5, "photo", None)] /\
  (forall s, JInt 5 <> JStr s).
Proof. split; [reflexivity | discriminate]. Qed.

(** C9, as the code has it. [download_and_save] sends its GET requests
    with the headers its caller passes. The Bing and NASA adapters send no
    headers, on the metadata fetch and on the image download alike; the
    Wikipedia adapter sends its [User-Agent] header on both; the Unsplash
    adapter sends its [Authorization] header on the metadata fetch and no
    header on the image download. *)
Theorem image_download_headers (E : env) (url : json)
    (target api_key unsplash_api_key : string) (headers : option headers_t)
    (topic query : option string) (w : world) :
  (exists d,
     log (snd (download_and_save E url target headers w))
       = (log w ++ ESaveCall url target headers :: d)%list /\
     Forall (save_event url headers) d) /\
  adapter_run None None target (download_bing E target) /\
  adapter_run None None target (download_nasa E target api_key) /\
  adapter_run (Some wikipedia_headers) (Some wikipedia_headers) target
    (download_wikipedia E target) /\
  adapter_run (Some [("Authorization", "Client-ID " ++ unsplash_api_key)]) None target
    (download_unsplash E target unsplash_api_key topic query).
Proof.
  split; [apply download_and_save_log|].
  split; [apply download_bing_run|].
  split; [apply download_nasa_run|].
  split; [apply download_wikipedia_run | apply download_unsplash_run].
Qed.

(** C9, as the claim states it, fails: the Unsplash adapter sends its
    [Authorization] header with the metadata request and no header with
    the image request. *)
Lemma download_unsplash_image_without_headers :
  map req_headers
    (gets (log (snd (download_unsplash env_unsplash "photo.jpg" "KEY" None None
                       initial_world))))
    = [Some [("Authorization", "Client-ID KEY")]; None].
Proof. reflexivity. Qed.

(** ** The NASA adapter *)

Lemma not_equal_str_true (v : json) (s : string) :
  v <> JStr s -> not_equal_str v s = true.
Proof.
  intros H. destruct v; try reflexivity. simpl.
  destruct (String.eqb_spec s0 s); [subst; contradiction | reflexivity].
Qed.

Lemma nasa_fetch_log (E : env) (api_key : string) (w : world) :
  exists d,
    log (snd (nasa_fetch E api_key w)) = (log w ++ d)%list /\ save_calls d = [].
Proof.
  assert (H : emits (metadata_event None) (nasa_fetch E api_key))
    by (unfold nasa_fetch; emits_auto).
  destruct (H w) as (d & Hd & F). exists d. split; [exact Hd|].
  exact (save_calls_metadata _ _ F).
Qed.

(** After the metadata fetch, the adapter goes on with the decoded answer. *)
Lemma download_nasa_fetched (E : env) (target api_key : string) (w w1 : world)
    (resp : response) (data : json) :
  nasa_fetch E api_key w = (Ret resp, w1) ->
  json_body resp = Some data ->
  download_nasa E target api_key w
  = (media_type <- lift (dict_get data "media_type" JNull) ;;
     if not_equal_str media_type "image" then
       media_type <- lift (dict_get data "media_type" JNull) ;;
       raise (Exception ("Today's APOD is not an image, it's a " ++ py_str E media_type))
     else
       hdurl <- lift (dict_get data "hdurl" JNull) ;;
       img_url <- (if truthy hdurl then ret hdurl else lift (dict_get data "url" JNull)) ;;
       if negb (truthy img_url) then raise (Exception "No image URL found in NASA APOD response")
       else
         title <- lift (dict_get data "title" (JStr "Unknown")) ;;
         date <- lift (dict_get data "date" (JStr "Unknown")) ;;
         log_verbose ("Title: " ++ py_str E title) ;;;
         log_verbose ("Date: " ++ py_str E date) ;;;
         download_and_save E img_url target None ;;;
         ret tt) w1.
Proof.
  intros Hfetch Hjson. unfold download_nasa, nasa_fetch in *.
  unfold bind at 1 in Hfetch. unfold bind at 1.
  destruct (log_verbose "Fetching NASA APOD" w) as [[[]|e] w0]; [|discriminate].
  unfold bind at 1. rewrite Hfetch.
  unfold bind at 1. unfold response_json. rewrite Hjson. reflexivity.
Qed.

(** C5. Once the APOD answer is fetched and decodes to an object: when its
    [media_type] is not ["image"], the adapter raises an exception whose
    message names the media type, and nothing else happens (no call of
    [download_and_save]); when it is ["image"] and the answer has no
    [hdurl] but a [url], the adapter calls [download_and_save] once, on that
    [url]. *)
Theorem download_nasa_media_type (E : env) (target api_key : string) (w w1 : world)
    (resp : response) (fields : list (string * json)) :
  nasa_fetch E api_key w = (Ret resp, w1) ->
  json_body resp = Some (JObj fields) ->
  (field fields "media_type" <> JStr "image" ->
   download_nasa E target api_key w
     = (Raise (Exception ("Today's APOD is not an image, it's a "
                          ++ py_str E (field fields "media_type"))), w1) /\
   exists d, log w1 = (log w ++ d)%list /\ save_calls d = []) /\
  (forall u,
     field fields "media_type" = JStr "image" ->
     assoc "hdurl" fields = None ->
     assoc "url" fields = Some (JStr u) ->
     u <> "" ->
     exists d,
       log (snd (download_nasa E target api_key w)) = (log w ++ d)%list /\
       save_calls d = [(JStr u, target, None)]).
Proof.
  intros Hfetch Hjson.
  pose proof (nasa_fetch_log E api_key w) as (d0 & Hd0 & Hs0).
  rewrite Hfetch in Hd0. simpl in Hd0.
  rewrite (download_nasa_fetched E target api_key w w1 resp _ Hfetch Hjson).
  split.
  - intros Hmt. split; [|now exists d0].
    unfold bind, lift, raise. simpl. fold (field fields "media_type").
    now rewrite (not_equal_str_true _ _ Hmt).
  - intros u Hmt Hhd Hurl Hu.
    unfold bind at 1. unfold lift at 1. simpl dict_get.
    fold (field fields "media_type"). rewrite Hmt.
    change (not_equal_str (JStr "image") "image") with false. cbv iota.
    unfold bind at 1. unfold lift at 1. simpl dict_get. rewrite Hhd. simpl truthy.
    unfold bind at 1. cbv iota. unfold lift at 1. simpl dict_get. rewrite Hurl.
    change (truthy (JStr u)) with (negb (u =? "")%string).
    apply String.eqb_neq in Hu. rewrite Hu.
    change (negb (negb false)) with false. cbv iota.
    unfold bind at 1. unfold lift at 1. simpl dict_get.
    unfold bind at 1. unfold lift at 1. simpl dict_get.
    match goal with |- context [(log_verbose ?a ;;; log_verbose ?b ;;; ?k) w1] =>
      assert (Hv : exists dv w2,
                 (log_verbose a ;;; log_verbose b ;;; k) w1 = k w2 /\
                 log w2 = (log w1 ++ dv)%list /\ save_calls dv = [])
    end.
    { unfold bind, log_verbose, print, emit. destruct w1 as [[] c l]; simpl.
      - eexists. eexists. split; [reflexivity|]. simpl. rewrite <- app_assoc.
        split; reflexivity.
      - exists [], (mkWorld false c l). rewrite app_nil_r. repeat split. }
    destruct Hv as (dv & w2 & -> & Hw2 & Hsv).
    destruct (download_and_save_log E (JStr u) target None w2) as (d & Hd & F).
    exists (d0 ++ dv ++ ESaveCall (JStr u) target None :: d)%list. split.
    + unfold bind. destruct (download_and_save E (JStr u) target None w2) as [[a|e] w3];
        simpl in *; rewrite Hd, Hw2, Hd0, <- !app_assoc; reflexivity.
    + rewrite !save_calls_app, Hs0, Hsv. simpl.
      now rewrite (save_calls_save _ _ _ F).
Qed.

Lemma download_nasa_media_type_witness :
  (download_nasa env_nasa_video "photo" "DEMO_KEY" initial_world
     = (Raise (Exception "Today's APOD is not an image, it's a video"),
        snd (nasa_fetch env_nasa_video "DEMO_KEY" initial_world)) /\
   exists d,
     log (snd (nasa_fetch env_nasa_video "DEMO_KEY" initial_world))
       = (log initial_world ++ d)%list /\ save_calls d = []) /\
  (exists d,
     log (snd (download_nasa env_nasa_url_only "photo" "DEMO_KEY" initial_world))
       = (log initial_world ++ d)%list /\
     save_calls d = [(JStr "https://apod.nasa.gov/image/m31", "photo", None)]).
Proof.
  split.
  - apply (proj1 (download_nasa_media_type env_nasa_video "photo" "DEMO_KEY" initial_world
                    _ _ _ eq_refl eq_refl)).
    discriminate.
  - apply (proj2 (download_nasa_media_type env_nasa_url_only "photo" "DEMO_KEY" initial_world
                    _ _ _ eq_refl eq_refl)); try reflexivity.
    discriminate.
Defined.

(** ** The dispatcher *)

(** C8. With the source [unsplash] and no [--unsplash-api-key], [main] prints
    the two lines of the missing-key message on the error stream and exits
    with status 1; nothing else happens, so no request is sent. *)
Theorem main_unsplash_missing_key (E : env) (target api_key : string)
    (topic query : option string) (verbose : bool) (w : world) :
  exists d,
    main E (mkArgs unsplash target api_key None topic query verbose) w
      = (Raise (SystemExit 1), mkWorld verbose (clock w) (log w ++ d)) /\
    d = [EPrint Stderr "Error: --unsplash-api-key is required for Unsplash source";
         EPrint Stderr "Get a free API key at: https://unsplash.com/developers"] /\
    gets d = [] /\
    exit_status (fst (main E (mkArgs unsplash target api_key None topic query verbose) w)) = 1.
Proof.
  eexists. split; [|repeat split].
  unfold main, try_except, bind, set_verbose, print, emit, sys_exit, raise. simpl.
  now rewrite <- app_assoc.
Qed.

(** ** The image saver *)

Lemma writes_app l1 l2 : writes (l1 ++ l2) = (writes l1 ++ writes l2)%list.
Proof. apply flat_map_app. Qed.

Lemma writes_not_write (d : list event) : Forall not_write d -> writes d = [].
Proof.
  induction 1 as [|ev d Hev _ IH]; [reflexivity|].
  destruct ev; simpl in *; solve [exact IH | contradiction].
Qed.

Lemma bind_assoc {A B C} (m : M A) (k1 : A -> M B) (k2 : B -> M C) (w : world) :
  bind (bind m k1) k2 w = bind m (fun a => bind (k1 a) k2) w.
Proof. unfold bind. now destruct (m w) as [[a|e] w1]. Qed.

(** One step of a computation that returns: the step returned too, and
    the log has grown by events of the step. *)
Lemma bind_ret_step {A B} (P : event -> Prop) (m : M A) (k : A -> M B)
    (w0 w w' : world) (v : B) :
  emits P m ->
  (exists d0, log w = (log w0 ++ d0)%list /\ Forall P d0) ->
  bind m k w = (Ret v, w') ->
  exists a w1,
    m w = (Ret a, w1) /\
    (exists d, log w1 = (log w0 ++ d)%list /\ Forall P d) /\
    k a w1 = (Ret v, w').
Proof.
  intros Hm (d0 & Hd0 & F0) H. unfold bind in H.
  destruct (Hm w) as (d & Hd & F).
  destruct (m w) as [[a|e] w1]; [|discriminate].
  exists a, w1. split; [reflexivity|]. split; [|exact H].
  exists (d0 ++ d)%list. simpl in Hd. rewrite Hd, Hd0, app_assoc.
  split; [reflexivity | now apply Forall_app].
Qed.

(** C6, as the code has it. When [download_and_save] returns, it returns
    [None]; the last two events of the call are the writing of the file at
    the final path and the printing of the success line that names this
    path, and the call writes no other file. *)
Theorem download_and_save_returns_none (E : env) (url : json) (target_path : string)
    (headers : option headers_t) (w w' : world) (v : pyret) :
  download_and_save E url target_path headers w = (Ret v, w') ->
  v = PyNone /\
  exists d p data,
    log w' = (log w ++ d ++
              [EWrite p data; EPrint Stdout ("Successfully downloaded to: " ++ p)])%list /\
    writes d = [].
Proof.
  intros H. unfold download_and_save in H.
  assert (Hacc : exists d0, log w = (log w ++ d0)%list /\ Forall not_write d0)
    by (exists []; rewrite app_nil_r; split; [reflexivity | constructor]).
  repeat (cbv zeta in H;
          eapply (bind_ret_step not_write) in H; [ | solve [emits_auto] | exact Hacc ];
          clear Hacc; destruct H as (? & ? & _ & Hacc & H)).
  unfold bind, write_file, print, emit, ret, raise in H.
  destruct (fs_write E _ _); [discriminate|]. simpl in H.
  injection H as <- <-. split; [reflexivity|].
  destruct Hacc as (d & Hd & F).
  eexists d, _, _. simpl. rewrite Hd, <- !app_assoc. simpl.
  split; [reflexivity | now apply writes_not_write].
Qed.

Lemma download_and_save_returns_none_witness :
  PyNone = PyNone /\
  exists d p data,
    log (snd (download_and_save env_png (JStr "https://example.com/image") "photo" None
                initial_world))
      = (log initial_world ++ d ++
         [EWrite p data; EPrint Stdout ("Successfully downloaded to: " ++ p)])%list /\
    writes d = [].
Proof.
  apply (download_and_save_returns_none env_png (JStr "https://example.com/image") "photo"
           None initial_world
           (snd (download_and_save env_png (JStr "https://example.com/image") "photo" None
                   initial_world))
           PyNone).
  reflexivity.
Defined.

(** C6, as the claim states it, fails: the call that saves [photo.png]
    returns [None], not the path. *)
Lemma download_and_save_does_not_return_path :
  fst (download_and_save env_png (JStr "https://example.com/image") "photo" None
         initial_world) = Ret PyNone /\
  writes (log (snd (download_and_save env_png (JStr "https://example.com/image") "photo"
                      None initial_world))) = [("photo.png", "PNG")] /\
  PyNone <> PyStr "photo.png".
Proof. repeat split. discriminate. Qed.

(** A response returned by [retry_request] is an answer of the network. *)
Lemma for_attempts_some {A} (f : Z -> M (option A)) (attempts : list Z) :
  forall w x w', for_attempts f attempts w = (Ret (Some x), w') ->
  exists a w0 w1, f a w0 = (Ret (Some x), w1).
Proof.
  induction attempts as [|a rest IH]; intros w x w' H; simpl in H; [discriminate|].
  unfold bind in H. destruct (f a w) as [[[y|]|e] w1] eqn:Hf.
  - injection H as -> ->. now exists a, w, w'.
  - now apply (IH w1 x w').
  - discriminate.
Qed.

Lemma retry_attempt_some (E : env) (url : json) (max_retries timeout : Z)
    (headers params : option headers_t) (attempt : Z) (w0 w1 : world) (r : response) :
  retry_attempt E url max_retries timeout headers params attempt w0 = (Ret (Some r), w1) ->
  http_get E (clock w0) (mkRequest url timeout true headers params) = Responds r.
Proof.
  unfold_attempt. destruct w0 as [v c l].
  destruct v; simpl;
    (destruct (http_get E c _) as [r0|e0]; simpl;
     [ destruct (is_error_status r0); simpl
     | destruct (is_RequestException e0); simpl ];
     try destruct (attempt =? max_retries - 1); simpl;
     intros H; try discriminate; congruence).
Qed.

Lemma retry_request_response (E : env) (url : json) (max_retries timeout : Z)
    (headers params : option headers_t) (w w' : world) (r : response) :
  retry_request E url max_retries timeout headers params w = (Ret r, w') ->
  exists n, http_get E n (mkRequest url timeout true headers params) = Responds r.
Proof.
  unfold retry_request, retry_loop. unfold bind at 1.
  destruct (for_attempts _ _ w) as [[[x|]|e] w1] eqn:Hloop; try discriminate.
  intros H. injection H as -> ->.
  destruct (for_attempts_some _ _ _ _ _ Hloop) as (a & w0 & w2 & Ha).
  exists (clock w0). exact (retry_attempt_some _ _ _ _ _ _ _ _ _ _ Ha).
Qed.

Lemma detect_extension_png (E : env) (u : string) :
  in_list (Str.lower (snd (splitext (urlparse_path E u)))) image_suffixes = false ->
  detect_extension E u (Some "image/png") = ".png".
Proof.
  intros H. unfold detect_extension. rewrite H.
  destruct (Str.contains "." (urlparse_path E u)); reflexivity.
Qed.

(** C7, as the code has it. With the target path [photo], a picture
    served with the content type [image/png], and a URL whose path has no
    recognized image extension: when [download_and_save] returns, the file
    it has written is [photo.png]. *)
Theorem download_and_save_photo_png (E : env) (u : string) (headers : option headers_t)
    (w w' : world) (v : pyret) :
  (forall n rq r, http_get E n rq = Responds r -> content_type r = Some "image/png") ->
  in_list (Str.lower (snd (splitext (urlparse_path E u)))) image_suffixes = false ->
  download_and_save E (JStr u) "photo" headers w = (Ret v, w') ->
  exists d data,
    log w' = (log w ++ d ++
              [EWrite "photo.png" data;
               EPrint Stdout "Successfully downloaded to: photo.png"])%list /\
    writes d = [] /\
    Str.endswith ".png" "photo.png" = true.
Proof.
  intros Hct Hurl H. unfold download_and_save in H.
  assert (Hacc : exists d0, log w = (log w ++ d0)%list /\ Forall not_write d0)
    by (exists []; rewrite app_nil_r; split; [reflexivity | constructor]).
  do 2 (eapply (bind_ret_step not_write) in H; [ | solve [emits_auto] | exact Hacc ];
        clear Hacc; destruct H as (? & ? & _ & Hacc & H)).
  eapply (bind_ret_step not_write) in H; [ | solve [emits_auto] | exact Hacc ].
  clear Hacc. destruct H as (resp & w3 & Hfetch & Hacc & H).
  apply retry_request_response in Hfetch as (n & Hn). apply Hct in Hn.
  cbv zeta in H. rewrite Hn in H.
  change (call_detect_extension E (JStr u) (Some "image/png"))
    with (@ret string (detect_extension E u (Some "image/png"))) in H.
  rewrite (detect_extension_png E u Hurl) in H.
  match type of H with context [bind (if ?c then ?a else ?b) _] =>
    change (if c then a else b)
      with (log_verbose "Auto-detected extension: .png" ;;;
            ret (Pathlib.mkPath "" ["photo.png"])) in H
  end.
  rewrite bind_assoc in H.
  repeat (eapply (bind_ret_step not_write) in H; [ | solve [emits_auto] | exact Hacc ];
          clear Hacc; destruct H as (? & ? & Hm & Hacc & H);
          first [ cbv beta in Hm; unfold ret in Hm; injection Hm as <- <- | clear Hm ]).
  unfold bind, write_file, print, emit, ret, raise in H.
  change (Pathlib.str (Pathlib.mkPath "" ["photo.png"])) with "photo.png" in H.
  destruct (fs_write E _ _); [discriminate|]. simpl in H.
  injection H as _ <-.
  destruct Hacc as (d & Hd & F).
  exists d, (content resp). simpl. rewrite Hd, <- !app_assoc. simpl.
  split; [reflexivity|]. split; [now apply writes_not_write | reflexivity].
Qed.

Lemma download_and_save_photo_png_witness :
  exists d data,
    log (snd (download_and_save env_png (JStr "https://example.com/image") "photo" None
                initial_world))
      = (log initial_world ++ d ++
         [EWrite "photo.png" data;
          EPrint Stdout "Successfully downloaded to: photo.png"])%list /\
    writes d = [] /\
    Str.endswith ".png" "photo.png" = true.
Proof.
  apply (download_and_save_photo_png env_png "https://example.com/image" None initial_world
           (snd (download_and_save env_png (JStr "https://example.com/image") "photo" None
                   initial_world))
           PyNone).
  - intros n rq r H. injection H as <-. reflexivity.
  - reflexivity.
  - reflexivity.
Defined.

(** C7, as the claim states it, fails: for a URL that ends in [.jpg], the
    picture served as [image/png] is written to [photo.jpg]. *)
Lemma download_and_save_url_extension_wins :
  content_type (ok_response (Some "image/png") "PNG" None) = Some "image/png" /\
  urlparse_path env_png_at_jpg_url "https://example.com/pic.jpg" = "/pic.jpg" /\
  writes (log (snd (download_and_save env_png_at_jpg_url (JStr "https://example.com/pic.jpg")
                      "photo" None initial_world)))
    = [("photo.jpg", "PNG")] /\
  Str.endswith ".png" "photo.jpg" = false.
Proof. repeat split. Qed.


(** * Further properties *)

(** ** The retry loop, whatever the network answers *)

(** An attempt that raises something else than a [RequestException]: one
    GET, no sleep, and the exception leaves the function. *)
Lemma retry_attempt_aborts (E : env) (url : json) (max_retries timeout : Z)
    (headers params : option headers_t) (attempt : Z) (w : world) (e : exn) :
  attempt_result E (clock w) (mkRequest url timeout true headers params) = Raise e ->
  is_RequestException e = false ->
  exists d,
    retry_attempt E url max_retries timeout headers params attempt w
      = (Raise e, mkWorld (VERBOSE w) (S (clock w)) (log w ++ d)) /\
    sleeps d = [] /\ gets d = [mkRequest url timeout true headers params].
Proof.
  intros Hr He. destruct w as [v c l].
  unfold attempt_result in Hr. simpl in Hr.
  destruct (http_get E c _) as [r|e0] eqn:Hg.
  - destruct (is_error_status r); [|discriminate].
    injection Hr as <-. discriminate.
  - injection Hr as <-. unfold_attempt.
    destruct v; simpl; rewrite Hg; simpl; rewrite He;
      eexists; (split; [ rewrite <- ?app_assoc; simpl; reflexivity | split; reflexivity ]).
Qed.

Lemma retry_attempt_returns (E : env) (url : json) (max_retries timeout : Z)
    (headers params : option headers_t) (attempt : Z) (w0 w1 : world) (r : response) :
  retry_attempt E url max_retries timeout headers params attempt w0 = (Ret (Some r), w1) ->
  attempt_result E (clock w0) (mkRequest url timeout true headers params) = Ret r.
Proof.
  unfold attempt_result. unfold_attempt. destruct w0 as [v c l].
  destruct v; simpl;
    (destruct (http_get E c _) as [r0|e0]; simpl;
     [ destruct (is_error_status r0); simpl
     | destruct (is_RequestException e0); simpl ];
     try destruct (attempt =? max_retries - 1); simpl;
     intros H; try discriminate; congruence).
Qed.

Lemma retry_attempt_raises (E : env) (url : json) (max_retries timeout : Z)
    (headers params : option headers_t) (attempt : Z) (w0 w1 : world) (e : exn) :
  retry_attempt E url max_retries timeout headers params attempt w0 = (Raise e, w1) ->
  attempt_result E (clock w0) (mkRequest url timeout true headers params) = Raise e.
Proof.
  unfold attempt_result. unfold_attempt. destruct w0 as [v c l].
  destruct v; simpl;
    (destruct (http_get E c _) as [r0|e0]; simpl;
     [ destruct (is_error_status r0); simpl
     | destruct (is_RequestException e0); simpl ];
     try destruct (attempt =? max_retries - 1); simpl;
     intros H; try discriminate; congruence).
Qed.

Lemma for_attempts_raise {A} (f : Z -> M (option A)) (attempts : list Z) :
  forall w e w', for_attempts f attempts w = (Raise e, w') ->
  exists a w0 w1, f a w0 = (Raise e, w1).
Proof.
  induction attempts as [|a rest IH]; intros w e w' H; simpl in H; [discriminate|].
  unfold bind in H. destruct (f a w) as [[[y|]|e0] w1] eqn:Hf.
  - discriminate.
  - now apply (IH w1 e w').
  - injection H as -> ->. now exists a, w, w'.
Qed.

(** The outcome of one attempt, by cases. *)
Lemma attempt_result_cases (E : env) (n : nat) (rq : request) :
  (exists r, attempt_result E n rq = Ret r) \/
  (exists e, attempt_result E n rq = Raise e /\ is_RequestException e = true) \/
  (exists e, attempt_result E n rq = Raise e /\ is_RequestException e = false).
Proof.
  destruct (attempt_result E n rq) as [r|e]; [left; now exists r|].
  right. destruct (is_RequestException e) eqn:He; [left | right]; now exists e.
Qed.

(** The loop over the attempts [j, j+1, ..., j+n-1]: it sends [k <= n]
    requests; when it runs to its end it has slept after each of them, and
    otherwise after each but the last. *)
Lemma for_attempts_bounded (E : env) (url : json) (max_retries timeout : Z)
    (headers params : option headers_t) :
  forall (n j : nat) (w : world),
  exists d k,
    snd (for_attempts (retry_attempt E url max_retries timeout headers params)
           (map Z.of_nat (seq j n)) w)
      = mkWorld (VERBOSE w) (clock w + k) (log w ++ d) /\
    (k <= n)%nat /\
    gets d = repeat (mkRequest url timeout true headers params) k /\
    ((fst (for_attempts (retry_attempt E url max_retries timeout headers params)
             (map Z.of_nat (seq j n)) w) = Ret None /\
      sleeps d = map (fun i => 2 ^ Z.of_nat i) (seq j k)) \/
     (fst (for_attempts (retry_attempt E url max_retries timeout headers params)
             (map Z.of_nat (seq j n)) w) <> Ret None /\
      (1 <= k)%nat /\
      sleeps d = map (fun i => 2 ^ Z.of_nat i) (seq j (k - 1)))).
Proof.
  induction n as [|n IH]; intros j w.
  - exists [], 0%nat. simpl. rewrite app_nil_r, Nat.add_0_r. destruct w.
    repeat split; auto.
  - simpl. unfold bind.
    destruct (attempt_result_cases E (clock w) (mkRequest url timeout true headers params))
      as [(r & Hr) | [(e & Hr & He) | (e & Hr & He)]].
    + destruct (retry_attempt_succeeds E url max_retries timeout headers params
                  (Z.of_nat j) w r Hr) as (d & Hrun & Hs & Hg).
      rewrite Hrun. exists (d ++ [EGet (mkRequest url timeout true headers params)])%list, 1%nat.
      simpl. rewrite Nat.add_1_r, sleeps_app, gets_app, Hs, Hg. simpl.
      repeat split; try lia. right. repeat split; [discriminate | lia].
    + destruct (Z.of_nat j =? max_retries - 1) eqn:Ha.
      * destruct (retry_attempt_last_fails E url max_retries timeout headers params
                    (Z.of_nat j) w e Hr He Ha) as (d & Hrun & Hs & Hg).
        rewrite Hrun. exists d, 1%nat. simpl. rewrite Nat.add_1_r, Hs, Hg.
        repeat split; try lia. right. repeat split; [discriminate | lia].
      * destruct (retry_attempt_fails E url max_retries timeout headers params
                    (Z.of_nat j) w e Hr He Ha) as (d1 & Hrun & Hs1 & Hg1).
        rewrite Hrun.
        destruct (IH (S j) (mkWorld (VERBOSE w) (S (clock w)) (log w ++ d1)))
          as (d2 & k & Hw & Hk & Hg2 & Hcase).
        exists (d1 ++ d2)%list, (S k). rewrite Hw. simpl.
        replace (S (clock w + k)) with (clock w + S k)%nat by lia.
        rewrite <- app_assoc, sleeps_app, gets_app, Hs1, Hg1. simpl.
        split; [reflexivity|]. split; [lia|]. split; [now rewrite Hg2|].
        destruct Hcase as [(Hnone & Hs2) | (Hsome & Hk1 & Hs2)].
        -- left. split; [exact Hnone | now rewrite Hs2].
        -- right. split; [exact Hsome|]. split; [lia|].
           rewrite Hs2. destruct k as [|k]; [lia|]. simpl. now rewrite Nat.sub_0_r.
    + destruct (retry_attempt_aborts E url max_retries timeout headers params
                  (Z.of_nat j) w e Hr He) as (d & Hrun & Hs & Hg).
      rewrite Hrun. exists d, 1%nat. simpl. rewrite Nat.add_1_r, Hs, Hg.
      repeat split; try lia. right. repeat split; [discriminate | lia].
Qed.

(** X1. Whatever the network answers, [retry_request] sends at most
    [max_retries] GET requests, all of them the same request, and between
    them it sleeps 1, 2, 4, ... seconds: after [k] requests it has slept
    [k - 1] times. *)
Theorem retry_request_bounded (E : env) (url : json) (max_retries timeout : Z)
    (headers params : option headers_t) (w : world) :
  exists d k,
    snd (retry_request E url max_retries timeout headers params w)
      = mkWorld (VERBOSE w) (clock w + k) (log w ++ d) /\
    (k <= Z.to_nat max_retries)%nat /\
    gets d = repeat (mkRequest url timeout true headers params) k /\
    sleeps d = backoff (k - 1).
Proof.
  destruct (for_attempts_bounded E url max_retries timeout headers params
              (Z.to_nat max_retries) 0%nat w) as (d & k & Hw & Hk & Hg & Hcase).
  exists d, k. unfold retry_request, retry_loop, bind. rewrite range_seq.
  destruct (for_attempts _ _ w) as [[[r|]|e] w1] eqn:Hloop; simpl in *;
    (split; [exact Hw|]; split; [exact Hk|]; split; [exact Hg|]).
  - destruct Hcase as [(Hnone & _) | (_ & _ & Hs)]; [discriminate | exact Hs].
  - destruct Hcase as [(_ & Hs) | (Hsome & _)]; [|now contradiction Hsome].
    destruct (Z.to_nat max_retries) as [|n] eqn:Hn.
    + replace k with 0%nat in * by lia. exact Hs.
    + exfalso.
      assert (Hnone : fst (for_attempts
                (retry_attempt E url max_retries timeout headers params)
                (map Z.of_nat (seq 0 (S n))) w) = Ret None) by now rewrite Hloop.
      destruct (for_attempts_none _ _ w Hnone (max_retries - 1)) as (w' & Hw').
      * apply in_map_iff. exists (Z.to_nat (max_retries - 1)).
        split; [lia | apply in_seq; lia].
      * revert Hw'. apply retry_attempt_last_leaves. apply Z.eqb_refl.
  - destruct Hcase as [(Hnone & _) | (_ & _ & Hs)]; [discriminate | exact Hs].
Qed.

(** X2. An exception that is no [RequestException] (an interrupt, say) leaves
    [retry_request] at once: the request is not sent again and there is no
    sleep. *)
Theorem retry_request_propagates (E : env) (url : json) (max_retries timeout : Z)
    (headers params : option headers_t) (w : world) (e : exn) :
  1 <= max_retries ->
  attempt_result E (clock w) (mkRequest url timeout true headers params) = Raise e ->
  is_RequestException e = false ->
  exists d,
    retry_request E url max_retries timeout headers params w
      = (Raise e, mkWorld (VERBOSE w) (S (clock w)) (log w ++ d)) /\
    sleeps d = [] /\
    gets d = [mkRequest url timeout true headers params].
Proof.
  intros Hm Hr He.
  destruct (retry_attempt_aborts E url max_retries timeout headers params 0 w e Hr He)
    as (d & Hrun & Hs & Hg).
  exists d. unfold retry_request, retry_loop, bind. rewrite range_seq.
  destruct (Z.to_nat max_retries) as [|n] eqn:Hn; [lia|].
  simpl. unfold bind. change (Z.of_nat 0) with 0. rewrite Hrun. auto.
Qed.

Lemma retry_request_propagates_witness :
  exists d,
    retry_request env_interrupted (JStr "http://a") 3 30 None None initial_world
      = (Raise KeyboardInterrupt, mkWorld false 1 d) /\
    sleeps d = [] /\ gets d = [sample_request].
Proof.
  apply (retry_request_propagates env_interrupted (JStr "http://a") 3 30 None None
           initial_world KeyboardInterrupt).
  - lia.
  - reflexivity.
  - reflexivity.
Defined.

(** A response returned by [retry_request] was answered by the network,
    without an error status. *)
Lemma retry_request_returns (E : env) (url : json) (max_retries timeout : Z)
    (headers params : option headers_t) (w w' : world) (r : response) :
  retry_request E url max_retries timeout headers params w = (Ret r, w') ->
  exists n,
    http_get E n (mkRequest url timeout true headers params) = Responds r /\
    is_error_status r = false.
Proof.
  unfold retry_request, retry_loop. unfold bind at 1.
  destruct (for_attempts _ _ w) as [[[x|]|e] w1] eqn:Hloop; try discriminate.
  intros H. injection H as -> ->.
  destruct (for_attempts_some _ _ _ _ _ Hloop) as (a & w0 & w2 & Ha).
  apply retry_attempt_returns in Ha. exists (clock w0).
  unfold attempt_result in Ha.
  destruct (http_get E (clock w0) _) as [r0|e0]; [|discriminate].
  destruct (is_error_status r0) eqn:Hs; [discriminate|].
  injection Ha as ->. auto.
Qed.

(** X3. What [retry_request] returns or raises comes from one of its
    attempts: a response it returns was answered by the network and has no
    error status (4xx or 5xx); an exception it raises was raised by an
    attempt, unless [max_retries <= 0], where nothing is sent and the
    exception is ["Max retries exceeded"]. *)
Theorem retry_request_outcome (E : env) (url : json) (max_retries timeout : Z)
    (headers params : option headers_t) (w : world) :
  match fst (retry_request E url max_retries timeout headers params w) with
  | Ret r =>
      exists n,
        http_get E n (mkRequest url timeout true headers params) = Responds r /\
        is_error_status r = false
  | Raise e =>
      (max_retries <= 0 /\ e = RequestException "Max retries exceeded" /\
       snd (retry_request E url max_retries timeout headers params w) = w) \/
      (exists n,
         attempt_result E n (mkRequest url timeout true headers params) = Raise e)
  end.
Proof.
  unfold retry_request, retry_loop, bind.
  destruct (for_attempts _ _ w) as [[[r|]|e] w1] eqn:Hloop; simpl.
  - apply (retry_request_returns E url max_retries timeout headers params w w1).
    unfold retry_request, retry_loop, bind. now rewrite Hloop.
  - destruct (Z_le_gt_dec max_retries 0) as [Hm|Hm].
    + left. split; [exact Hm|]. split; [reflexivity|].
      unfold range in Hloop. replace (Z.to_nat max_retries) with 0%nat in Hloop by lia.
      simpl in Hloop. unfold ret in Hloop. congruence.
    + exfalso.
      assert (Hnone : fst (for_attempts
                (retry_attempt E url max_retries timeout headers params)
                (range max_retries) w) = Ret None) by now rewrite Hloop.
      destruct (for_attempts_none _ _ w Hnone (max_retries - 1)) as (w' & Hw').
      * unfold range. apply in_map_iff. exists (Z.to_nat (max_retries - 1)).
        split; [lia | apply in_seq; lia].
      * revert Hw'. apply retry_attempt_last_leaves. apply Z.eqb_refl.
  - right. destruct (for_attempts_raise _ _ _ _ _ Hloop) as (a & w0 & w2 & Ha).
    apply retry_attempt_raises in Ha. now exists (clock w0).
Qed.

(** ** The extension detector and the case of letters *)

Lemma lower_char_idem (c : ascii) : Str.lower_char (Str.lower_char c) = Str.lower_char c.
Proof. destruct c as [[] [] [] [] [] [] [] []]; reflexivity. Qed.

Lemma lower_idem (s : string) : Str.lower (Str.lower s) = Str.lower s.
Proof. induction s as [|c s IH]; simpl; [reflexivity | now rewrite IH, lower_char_idem]. Qed.

Lemma lower_empty (s : string) : (Str.lower s =? "")%string = (s =? "")%string.
Proof. now destruct s. Qed.

Lemma take_lower (n : nat) (s : string) : Str.take n (Str.lower s) = Str.lower (Str.take n s).
Proof.
  revert s. induction n as [|n IH]; intros [|c s]; simpl; try reflexivity. now rewrite IH.
Qed.

Lemma rfind_from_dot_lower (s : string) :
  forall i acc, Str.rfind_from "." (Str.lower s) i acc = Str.rfind_from "." s i acc.
Proof.
  induction s as [|c s IH]; simpl; intros i acc; [reflexivity|].
  now rewrite lower_char_dot, IH.
Qed.

Lemma rfind_from_slash_lower (s : string) :
  forall i acc, Str.rfind_from "/" (Str.lower s) i acc = Str.rfind_from "/" s i acc.
Proof.
  induction s as [|c s IH]; simpl; intros i acc; [reflexivity|].
  now rewrite lower_char_slash, IH.
Qed.

Lemma all_dots_lower (s : string) : Str.all_char "." (Str.lower s) = Str.all_char "." s.
Proof. induction s as [|c s IH]; simpl; [reflexivity | now rewrite lower_char_dot, IH]. Qed.

(** [splitext] and [lower] commute. *)
Lemma splitext_lower (p : string) :
  splitext (Str.lower p) = (Str.lower (fst (splitext p)), Str.lower (snd (splitext p))).
Proof.
  unfold splitext, Str.rfind.
  rewrite rfind_from_dot_lower, rfind_from_slash_lower.
  destruct (_ <? _); [|reflexivity].
  rewrite drop_lower, take_lower, all_dots_lower.
  destruct (Str.all_char _ _); simpl; [reflexivity|].
  now rewrite take_lower, drop_lower.
Qed.

Lemma extension_of_content_type_lower (ct : string) :
  extension_of_content_type (Some (Str.lower ct)) = extension_of_content_type (Some ct).
Proof.
  unfold extension_of_content_type, truthy_opt. now rewrite lower_empty, lower_idem.
Qed.

(** X4. [detect_extension] does not see the case of letters: two URLs whose
    paths differ by case only, with content types that differ by case only,
    get the same extension. *)
Theorem detect_extension_case_insensitive (E : env) (url1 url2 ct1 ct2 : string) :
  Str.lower (urlparse_path E url1) = Str.lower (urlparse_path E url2) ->
  Str.lower ct1 = Str.lower ct2 ->
  detect_extension E url1 (Some ct1) = detect_extension E url2 (Some ct2).
Proof.
  intros Hp Hc. unfold detect_extension.
  change "."%string with (String "."%char "").
  rewrite !contains_char.
  rewrite <- (has_dot_lower (urlparse_path E url1)), Hp, has_dot_lower.
  assert (Hext : Str.lower (snd (splitext (urlparse_path E url1)))
                 = Str.lower (snd (splitext (urlparse_path E url2)))).
  { pose proof (f_equal snd (splitext_lower (urlparse_path E url1))) as H1.
    pose proof (f_equal snd (splitext_lower (urlparse_path E url2))) as H2.
    simpl in H1, H2. now rewrite <- H1, <- H2, Hp. }
  rewrite Hext.
  rewrite <- (extension_of_content_type_lower ct1), Hc, extension_of_content_type_lower.
  reflexivity.
Qed.

Lemma detect_extension_case_insensitive_witness :
  detect_extension env_path_urls "/a/Pic.PNG" (Some "Image/GIF")
    = detect_extension env_path_urls "/A/PIC.png" (Some "IMAGE/gif").
Proof.
  apply (detect_extension_case_insensitive env_path_urls "/a/Pic.PNG" "/A/PIC.png"
           "Image/GIF" "IMAGE/gif"); reflexivity.
Defined.

Lemma extension_of_content_type_not_jpeg (content_type : option string) :
  extension_of_content_type content_type <> ".jpeg".
Proof.
  unfold extension_of_content_type.
  destruct content_type as [ct|]; [|discriminate].
  destruct (truthy_opt (Some ct)); [|discriminate].
  destruct (_ || _); [discriminate|].
  destruct (Str.contains "png" _); [discriminate|].
  destruct (Str.contains "gif" _); [discriminate|].
  destruct (Str.contains "webp" _); discriminate.
Qed.

(** X5. The suffix [.jpeg] comes from the URL only: a content type such as
    [image/jpeg] gives [.jpg], so when [detect_extension] returns [.jpeg]
    the path of the URL has this extension. *)
Theorem detect_extension_jpeg_from_url (E : env) (url : string)
    (content_type : option string) :
  detect_extension E url content_type = ".jpeg" ->
  Str.lower (snd (splitext (urlparse_path E url))) = ".jpeg".
Proof.
  unfold detect_extension.
  destruct (Str.contains "." _).
  - destruct (in_list _ image_suffixes); [tauto|].
    intros H. now apply extension_of_content_type_not_jpeg in H.
  - intros H. now apply extension_of_content_type_not_jpeg in H.
Qed.

Lemma detect_extension_jpeg_from_url_witness :
  Str.lower (snd (splitext (urlparse_path env_jpeg_url "https://example.com/shots/moon.JPEG")))
    = ".jpeg".
Proof.
  apply (detect_extension_jpeg_from_url env_jpeg_url "https://example.com/shots/moon.JPEG"
           (Some "image/png")).
  reflexivity.
Defined.

(** ** The image saver: what a successful call has done *)

Lemma str_app_assoc (a b c : string) : (a ++ b) ++ c = a ++ b ++ c.
Proof. induction a as [|x a IH]; simpl; [reflexivity | now rewrite IH]. Qed.

Lemma endswith_app (a s : string) : Str.endswith s (a ++ s) = true.
Proof.
  unfold Str.endswith. rewrite length_app.
  replace (String.length a + String.length s - String.length s)%nat
    with (String.length a) by lia.
  rewrite substring_take_drop, drop_app, take_all by lia.
  rewrite String.eqb_refl, andb_true_r. apply Nat.leb_le. lia.
Qed.

Lemma image_suffix_lower (sfx : string) : In sfx image_suffixes -> Str.lower sfx = sfx.
Proof. intros H. repeat (destruct H as [<-|H]; [reflexivity|]). contradiction. Qed.

Lemma join_snoc (sep : string) (l : list string) (x : string) :
  exists pre, Str.join sep (l ++ [x]) = pre ++ x.
Proof.
  induction l as [|a l (pre & IH)]; [now exists ""|].
  simpl. destruct (l ++ [x])%list eqn:Hl; [now destruct l|].
  exists (a ++ sep ++ pre). rewrite IH. now rewrite !str_app_assoc.
Qed.

Lemma join_last (sep : string) (parts : list string) :
  parts <> [] -> exists pre, Str.join sep parts = pre ++ last parts "".
Proof.
  intros H. destruct (exists_last H) as (l & x & ->). rewrite last_last. apply join_snoc.
Qed.

(** [str(p)] ends with [p.name]. *)
Lemma str_ends_with_name (p : Pathlib.path) :
  Pathlib.parts p <> [] -> exists pre, Pathlib.str p = pre ++ Pathlib.name p.
Proof.
  destruct p as [r ps]. unfold Pathlib.str, Pathlib.name. simpl. intros Hparts.
  destruct (join_last "/" ps Hparts) as (pre & Hj).
  exists (r ++ pre). rewrite str_app_assoc, <- Hj.
  destruct r; [|reflexivity]. destruct ps; [contradiction | reflexivity].
Qed.

(** A path whose suffix is a recognized one ends with it. *)
Lemma str_ends_with_suffix (p : Pathlib.path) :
  In (Str.lower (Pathlib.suffix p)) image_suffixes ->
  exists pre, Pathlib.str p = pre ++ Pathlib.suffix p.
Proof.
  intros Hin.
  assert (Hne : Pathlib.suffix p <> "").
  { intros Heq. rewrite Heq in Hin. simpl in Hin.
    repeat (destruct Hin as [Hin|Hin]; [discriminate|]). contradiction. }
  assert (Hparts : Pathlib.parts p <> []).
  { intros Heq. apply Hne. unfold Pathlib.suffix, Pathlib.name. now rewrite Heq. }
  destruct (str_ends_with_name p Hparts) as (pre & Hstr).
  unfold Pathlib.suffix in *.
  destruct (_ && _); [|contradiction].
  exists (pre ++ Str.take (Z.to_nat (Str.rfind "." (Pathlib.name p))) (Pathlib.name p)).
  now rewrite str_app_assoc, take_drop.
Qed.

(** The path made by [with_suffix] ends with the new suffix. *)
Lemma with_suffix_ends (p q : Pathlib.path) (sfx : string) :
  Pathlib.with_suffix p sfx = Ret q -> exists pre, Pathlib.str q = pre ++ sfx.
Proof.
  unfold Pathlib.with_suffix.
  destruct (Str.contains "/" sfx); [discriminate|].
  destruct (_ || _); [discriminate|].
  destruct (_ =? _)%string; [discriminate|].
  intros H. injection H as <-.
  match goal with |- context [(removelast _ ++ [?n])%list] => set (name' := n) end.
  assert (Hname : exists stem, name' = stem ++ sfx).
  { subst name'. destruct (_ =? _)%string; eexists; reflexivity. }
  destruct Hname as (stem & Hname).
  destruct (str_ends_with_name
              (Pathlib.mkPath (Pathlib.root p) (removelast (Pathlib.parts p) ++ [name'])))
    as (pre & Hstr).
  { simpl. now destruct (removelast (Pathlib.parts p)). }
  exists (pre ++ stem). rewrite Hstr. unfold Pathlib.name. simpl.
  now rewrite last_last, Hname, str_app_assoc.
Qed.

(** What a call of [download_and_save] that returns has done: it has
    fetched a response for the URL, chosen the target (the given path when
    its suffix is recognized, the path with the detected suffix otherwise),
    written the body of the response there, and printed the success line. *)
Lemma download_and_save_success (E : env) (url : json) (target_path : string)
    (headers : option headers_t) (w w' : world) (v : pyret) :
  download_and_save E url target_path headers w = (Ret v, w') ->
  exists d resp target n,
    log w' = (log w ++ d ++
              [EWrite (Pathlib.str target) (content resp);
               EPrint Stdout ("Successfully downloaded to: " ++ Pathlib.str target)])%list /\
    writes d = [] /\
    http_get E n (mkRequest url 30 true headers None) = Responds resp /\
    is_error_status resp = false /\
    ((in_list (Str.lower (Pathlib.suffix (Pathlib.Path target_path))) image_suffixes = true /\
      target = Pathlib.Path target_path) \/
     (in_list (Str.lower (Pathlib.suffix (Pathlib.Path target_path))) image_suffixes = false /\
      exists u,
        url = JStr u /\
        Pathlib.with_suffix (Pathlib.Path target_path)
          (detect_extension E u
             (Some (match content_type resp with Some c => c | None => "" end)))
        = Ret target)).
Proof.
  intros H. unfold download_and_save in H.
  assert (Hacc : exists d0, log w = (log w ++ d0)%list /\ Forall not_write d0)
    by (exists []; rewrite app_nil_r; split; [reflexivity | constructor]).
  do 2 (eapply (bind_ret_step not_write) in H; [ | solve [emits_auto] | exact Hacc ];
        clear Hacc; destruct H as (? & ? & _ & Hacc & H)).
  eapply (bind_ret_step not_write) in H; [ | solve [emits_auto] | exact Hacc ].
  clear Hacc. destruct H as (resp & w3 & Hfetch & Hacc & H).
  apply retry_request_returns in Hfetch as (n & Hn & Hstatus).
  cbv zeta in H.
  eapply (bind_ret_step not_write) in H; [ | solve [emits_auto] | exact Hacc ].
  clear Hacc. destruct H as (target & w4 & Htarget & Hacc & H).
  assert (Hchoice :
    (in_list (Str.lower (Pathlib.suffix (Pathlib.Path target_path))) image_suffixes = true /\
      target = Pathlib.Path target_path) \/
     (in_list (Str.lower (Pathlib.suffix (Pathlib.Path target_path))) image_suffixes = false /\
      exists u,
        url = JStr u /\
        Pathlib.with_suffix (Pathlib.Path target_path)
          (detect_extension E u
             (Some (match content_type resp with Some c => c | None => "" end)))
        = Ret target)).
  { destruct (_ || _) eqn:Hc in Htarget.
    - right. split.
      { apply orb_true_iff in Hc as [Hc|Hc]; [|now apply negb_true_iff in Hc].
        apply String.eqb_eq in Hc. now rewrite Hc. }
      destruct url; try discriminate. exists s. split; [reflexivity|].
      unfold call_detect_extension, bind, ret, lift in Htarget.
      destruct (Pathlib.with_suffix _ _) as [q|e]; [|discriminate].
      destruct (log_verbose _ w3) as [[[]|e] w5]; [|discriminate].
      now injection Htarget as ->.
    - left. apply orb_false_iff in Hc as [_ Hc]. apply negb_false_iff in Hc.
      unfold ret in Htarget. split; [exact Hc | congruence]. }
  repeat (eapply (bind_ret_step not_write) in H; [ | solve [emits_auto] | exact Hacc ];
          clear Hacc; destruct H as (? & ? & _ & Hacc & H)).
  unfold bind, write_file, print, emit, ret, raise in H.
  destruct (fs_write E _ _); [discriminate|]. simpl in H.
  injection H as _ <-.
  destruct Hacc as (d & Hd & F).
  exists d, resp, target, n. simpl. rewrite Hd, <- !app_assoc. simpl.
  repeat split; try assumption. now apply writes_not_write.
Qed.

(** X6. A target path whose suffix is one of the five (in any case) is kept:
    when [download_and_save] returns, it has written the file at the path
    given, whatever the URL and the content type of the response are. *)
Theorem download_and_save_keeps_target (E : env) (url : json) (target_path : string)
    (headers : option headers_t) (w w' : world) (v : pyret) :
  in_list (Str.lower (Pathlib.suffix (Pathlib.Path target_path))) image_suffixes = true ->
  download_and_save E url target_path headers w = (Ret v, w') ->
  exists d data,
    log w' = (log w ++ d ++
              [EWrite (Pathlib.str (Pathlib.Path target_path)) data;
               EPrint Stdout ("Successfully downloaded to: "
                              ++ Pathlib.str (Pathlib.Path target_path))])%list /\
    writes d = [].
Proof.
  intros Hsfx H.
  destruct (download_and_save_success _ _ _ _ _ _ _ H)
    as (d & resp & target & n & Hlog & Hw & _ & _ & [(_ & ->) | (Hno & _)]).
  - now exists d, (content resp).
  - congruence.
Qed.

Lemma download_and_save_keeps_target_witness :
  exists d data,
    log (snd (download_and_save env_png_at_jpg_url (JStr "https://example.com/pic.jpg")
                "walls/Today.GIF" None initial_world))
      = (log initial_world ++ d ++
         [EWrite (Pathlib.str (Pathlib.Path "walls/Today.GIF")) data;
          EPrint Stdout ("Successfully downloaded to: "
                         ++ Pathlib.str (Pathlib.Path "walls/Today.GIF"))])%list /\
    writes d = [].
Proof.
  apply (download_and_save_keeps_target env_png_at_jpg_url
           (JStr "https://example.com/pic.jpg") "walls/Today.GIF" None initial_world
           (snd (download_and_save env_png_at_jpg_url (JStr "https://example.com/pic.jpg")
                   "walls/Today.GIF" None initial_world))
           PyNone).
  - reflexivity.
  - reflexivity.
Defined.

Lemma detect_extension_in_suffixes (E : env) (url : string) (content_type : option string) :
  In (detect_extension E url content_type) image_suffixes.
Proof.
  unfold detect_extension.
  destruct (Str.contains "." (urlparse_path E url));
    [|apply extension_of_content_type_recognized].
  destruct (in_list _ image_suffixes) eqn:Hext;
    [now apply in_list_In | apply extension_of_content_type_recognized].
Qed.

(** X7. The file that [download_and_save] writes always has one of the five
    image suffixes, up to case: the suffix of the target when it is one of
    them, the detected one otherwise. *)
Theorem download_and_save_image_suffix (E : env) (url : json) (target_path : string)
    (headers : option headers_t) (w w' : world) (v : pyret) :
  download_and_save E url target_path headers w = (Ret v, w') ->
  exists d p data sfx,
    log w' = (log w ++ d ++
              [EWrite p data; EPrint Stdout ("Successfully downloaded to: " ++ p)])%list /\
    In sfx image_suffixes /\
    Str.endswith sfx (Str.lower p) = true.
Proof.
  intros H.
  destruct (download_and_save_success _ _ _ _ _ _ _ H)
    as (d & resp & target & n & Hlog & _ & _ & _ & [(Hin & ->) | (_ & u & _ & Hwith)]).
  - apply in_list_In in Hin.
    destruct (str_ends_with_suffix _ Hin) as (pre & Hstr).
    exists d, (Pathlib.str (Pathlib.Path target_path)), (content resp),
      (Str.lower (Pathlib.suffix (Pathlib.Path target_path))).
    split; [exact Hlog|]. split; [exact Hin|].
    rewrite Hstr at 1. rewrite lower_app. apply endswith_app.
  - destruct (with_suffix_ends _ _ _ Hwith) as (pre & Hstr).
    pose proof (detect_extension_in_suffixes E u
                  (Some (match content_type resp with Some c => c | None => "" end))) as Hin.
    exists d, (Pathlib.str target), (content resp), (detect_extension E u
                  (Some (match content_type resp with Some c => c | None => "" end))).
    split; [exact Hlog|]. split; [exact Hin|].
    rewrite Hstr, lower_app, (image_suffix_lower _ Hin). apply endswith_app.
Qed.

Lemma download_and_save_image_suffix_witness :
  exists d p data sfx,
    log (snd (download_and_save env_png (JStr "https://example.com/image") "shots/moon.txt"
                None initial_world))
      = (log initial_world ++ d ++
         [EWrite p data; EPrint Stdout ("Successfully downloaded to: " ++ p)])%list /\
    In sfx image_suffixes /\
    Str.endswith sfx (Str.lower p) = true.
Proof.
  apply (download_and_save_image_suffix env_png (JStr "https://example.com/image")
           "shots/moon.txt" None initial_world
           (snd (download_and_save env_png (JStr "https://example.com/image")
                   "shots/moon.txt" None initial_world))
           PyNone).
  reflexivity.
Defined.

(** X8. The file holds the body of the response, as received: when
    [download_and_save] returns, the data it has written is the content of
    a response that the network gave to the GET request for the URL, sent
    with the headers of the call, and this response has no error status. *)
Theorem download_and_save_writes_body (E : env) (url : json) (target_path : string)
    (headers : option headers_t) (w w' : world) (v : pyret) :
  download_and_save E url target_path headers w = (Ret v, w') ->
  exists d p resp n,
    log w' = (log w ++ d ++
              [EWrite p (content resp);
               EPrint Stdout ("Successfully downloaded to: " ++ p)])%list /\
    http_get E n (mkRequest url 30 true headers None) = Responds resp /\
    is_error_status resp = false.
Proof.
  intros H.
  destruct (download_and_save_success _ _ _ _ _ _ _ H)
    as (d & resp & target & n & Hlog & _ & Hn & Hs & _).
  now exists d, (Pathlib.str target), resp, n.
Qed.

Lemma download_and_save_writes_body_witness :
  exists d p resp n,
    log (snd (download_and_save env_png (JStr "https://example.com/image") "photo" None
                initial_world))
      = (log initial_world ++ d ++
         [EWrite p (content resp);
          EPrint Stdout ("Successfully downloaded to: " ++ p)])%list /\
    http_get env_png n (mkRequest (JStr "https://example.com/image") 30 true None None)
      = Responds resp /\
    is_error_status resp = false.
Proof.
  apply (download_and_save_writes_body env_png (JStr "https://example.com/image") "photo"
           None initial_world
           (snd (download_and_save env_png (JStr "https://example.com/image") "photo" None
                   initial_world))
           PyNone).
  reflexivity.
Defined.

(** ** One file or none *)

Lemma sof_bind {A B} (m : M A) (k : A -> M B) :
  emits not_write m -> (forall a, saves_or_fails (k a)) -> saves_or_fails (bind m k).
Proof.
  intros Hm Hk w. unfold bind.
  destruct (Hm w) as (d0 & H0 & F0).
  destruct (m w) as [[a|e] w1]; simpl in *.
  - destruct (Hk a w1) as (d1 & H1 & Hcase).
    exists (d0 ++ d1)%list. rewrite H1, H0, app_assoc. split; [reflexivity|].
    rewrite writes_app, (writes_not_write _ F0). exact Hcase.
  - exists d0. split; [exact H0|]. left. exists e. split; [reflexivity|].
    now apply writes_not_write.
Qed.

Lemma sof_raise {A} (e : exn) : saves_or_fails (@raise A e).
Proof.
  intros w. exists []. simpl. rewrite app_nil_r. split; [reflexivity|].
  left. now exists e.
Qed.

Lemma sof_write (E : env) (target : Pathlib.path) (data msg : string) :
  saves_or_fails (write_file E target data ;;; print Stdout msg ;;; ret PyNone).
Proof.
  intros w. unfold bind, write_file, print, emit, ret, raise.
  destruct (fs_write E _ _) as [e|]; simpl.
  - exists []. rewrite app_nil_r. split; [reflexivity|]. left. now exists e.
  - eexists. rewrite <- app_assoc. split; [reflexivity|]. right.
    now exists PyNone, (Pathlib.str target), data.
Qed.

Lemma sof_then_ret {A} (m : M A) :
  saves_or_fails m -> saves_or_fails (m ;;; ret tt).
Proof.
  intros Hm w. destruct (Hm w) as (d & Hd & Hcase). exists d. unfold bind.
  destruct (m w) as [[a|e] w1]; simpl in *; (split; [exact Hd|]).
  - destruct Hcase as [(e & He & _) | (a0 & p & data & _ & Hw)]; [discriminate|].
    right. now exists tt, p, data.
  - destruct Hcase as [(e0 & He & Hw) | (a0 & p & data & He & _)]; [|discriminate].
    left. now exists e.
Qed.

Lemma sof_try_except {A} (m : M A) (catches : exn -> bool) (handler : exn -> M A) :
  saves_or_fails m ->
  (forall e w, exists d e',
     handler e w = (Raise e', mkWorld (VERBOSE w) (clock w) (log w ++ d)) /\ writes d = []) ->
  saves_or_fails (try_except m catches handler).
Proof.
  intros Hm Hh w. destruct (Hm w) as (d & Hd & Hcase). unfold try_except.
  destruct (m w) as [[a|e] w1]; simpl in *.
  - exists d. split; [exact Hd | exact Hcase].
  - destruct Hcase as [(e0 & _ & Hw) | (a0 & p & data & He & _)]; [|discriminate].
    destruct (catches e).
    + destruct (Hh e w1) as (d' & e' & Hrun & Hw'). rewrite Hrun. simpl.
      exists (d ++ d')%list. rewrite Hd, app_assoc. split; [reflexivity|].
      left. exists e'. split; [reflexivity|]. now rewrite writes_app, Hw, Hw'.
    + exists d. split; [exact Hd|]. left. now exists e.
Qed.

Lemma emits_set_verbose (P : event -> Prop) (b : bool) : emits P (set_verbose b).
Proof. intros w. exists []. simpl. now rewrite app_nil_r. Qed.

Tactic Notation "sof_auto" :=
  repeat first
    [ apply sof_raise | apply sof_write | apply sof_then_ret
    | apply sof_bind; [ solve [emits_auto] | intro ]
    | progress cbv beta zeta
    | match goal with
      | |- saves_or_fails (if ?c then _ else _) => destruct c
      end ].

Lemma download_and_save_sof (E : env) (url : json) (target_path : string)
    (headers : option headers_t) :
  saves_or_fails (download_and_save E url target_path headers).
Proof. unfold download_and_save. sof_auto. Qed.


Tactic Notation "adapter_sof" :=
  repeat first
    [ apply sof_then_ret; apply download_and_save_sof
    | apply sof_raise
    | apply sof_bind; [ solve [emits_auto] | intro ]
    | progress cbv beta zeta
    | match goal with
      | |- saves_or_fails (if ?c then _ else _) => destruct c
      end ].

Lemma download_bing_sof (E : env) (target : string) :
  saves_or_fails (download_bing E target).
Proof. unfold download_bing. adapter_sof. Qed.

Lemma download_nasa_sof (E : env) (target api_key : string) :
  saves_or_fails (download_nasa E target api_key).
Proof. unfold download_nasa. adapter_sof. Qed.

Lemma download_wikipedia_sof (E : env) (target : string) :
  saves_or_fails (download_wikipedia E target).
Proof. unfold download_wikipedia. adapter_sof. Qed.

Lemma download_unsplash_sof (E : env) (target api_key : string) (topic query : option string) :
  saves_or_fails (download_unsplash E target api_key topic query).
Proof. unfold download_unsplash. adapter_sof. Qed.


(** X11. [main] is the one place where errors are handled. When the adapter
    it calls returns, so does [main]; when the adapter raises an
    [Exception], [main] prints [Error: ] and the message of the exception
    on the error stream and exits with status 1; on a [KeyboardInterrupt] it
    prints [Cancelled by user] on the standard output and exits with
    status 1; a [SystemExit] goes through. *)
Theorem main_error_boundary (E : env) (a : args) (w w2 : world) (r : result unit) :
  (source a = unsplash -> truthy_opt (unsplash_api_key a) = true) ->
  adapter_of E a (mkWorld (verbose a) (clock w) (log w)) = (r, w2) ->
  main E a w =
    match r with
    | Ret _ => (Ret tt, w2)
    | Raise (SystemExit code) => (Raise (SystemExit code), w2)
    | Raise KeyboardInterrupt =>
        (Raise (SystemExit 1),
         mkWorld (VERBOSE w2) (clock w2)
           (log w2 ++ [EPrint Stdout (newline ++ "Cancelled by user")]))
    | Raise e =>
        (Raise (SystemExit 1),
         mkWorld (VERBOSE w2) (clock w2)
           (log w2 ++ [EPrint Stderr ("Error: " ++ exn_str e)]))
    end.
Proof.
  intros Hkey Hrun.
  assert (Hbody :
    (match source a with
     | bing => download_bing E (target a)
     | nasa => download_nasa E (target a) (api_key a)
     | wikipedia => download_wikipedia E (target a)
     | unsplash =>
         if negb (truthy_opt (unsplash_api_key a)) then
           print Stderr "Error: --unsplash-api-key is required for Unsplash source" ;;;
           print Stderr "Get a free API key at: https://unsplash.com/developers" ;;;
           sys_exit 1
         else
           download_unsplash E (target a)
             (match unsplash_api_key a with Some k => k | None => "" end)
             (topic a) (query a)
     end) = adapter_of E a).
  { unfold adapter_of. destruct (source a); try reflexivity.
    now rewrite (Hkey eq_refl). }
  unfold main. unfold bind at 1. unfold set_verbose, try_except.
  rewrite Hbody. cbv beta iota. rewrite Hrun.
  destruct r as [[]|e]; [reflexivity|].
  destruct e; reflexivity.
Qed.

Lemma main_error_boundary_witness :
  main env_bing_empty (mkArgs bing "out.jpg" "DEMO_KEY" None None None false) initial_world
  = (Raise (SystemExit 1),
     mkWorld false 1
       [EGet (mkRequest
                (JStr "https://www.bing.com/HPImageArchive.aspx?format=js&idx=0&n=1&mkt=en-US")
                30 true None None);
        EPrint Stderr "Error: No images found in Bing response"]).
Proof.
  apply (main_error_boundary env_bing_empty
           (mkArgs bing "out.jpg" "DEMO_KEY" None None None false) initial_world
           (mkWorld false 1
              [EGet (mkRequest
                (JStr "https://www.bing.com/HPImageArchive.aspx?format=js&idx=0&n=1&mkt=en-US")
                30 true None None)])
           (Raise (Exception "No images found in Bing response"))).
  - discriminate.
  - reflexivity.
Defined.

(** ** The adapters, case by case *)

Lemma bind_lift_ret {A B} (a : A) (k : A -> M B) (w : world) :
  bind (lift (Ret a)) k w = k a w.
Proof. reflexivity. Qed.

Lemma bind_lift_raise {A B} (e : exn) (k : A -> M B) (w : world) :
  bind (lift (Raise e)) k w = (Raise e, w).
Proof. reflexivity. Qed.

Lemma bind_ret {A B} (a : A) (k : A -> M B) (w : world) : bind (ret a) k w = k a w.
Proof. reflexivity. Qed.

Lemma dict_get_obj (fields : list (string * json)) (k : string) (default : json) :
  dict_get (JObj fields) k default
  = Ret (match assoc k fields with Some x => x | None => default end).
Proof. reflexivity. Qed.

Lemma getitem_key_obj (fields : list (string * json)) (k : string) (x : json) :
  assoc k fields = Some x -> getitem_key (JObj fields) k = Ret x.
Proof. intros H. simpl. now rewrite H. Qed.

Lemma field_assoc (fields : list (string * json)) (k : string) (x : json) :
  assoc k fields = Some x -> field fields k = x.
Proof. intros H. unfold field. now rewrite H. Qed.

(** A verbose message in front of a computation adds prints at most. *)
Lemma log_verbose_then {A} (msg : string) (k : M A) (w : world) :
  exists dv,
    (log_verbose msg ;;; k) w = k (mkWorld (VERBOSE w) (clock w) (log w ++ dv)) /\
    Forall print_only dv.
Proof.
  unfold bind, log_verbose, print, emit. destruct w as [[] c l]; simpl.
  - eexists. split; [reflexivity|]. repeat constructor.
  - exists []. rewrite app_nil_r. split; [reflexivity | constructor].
Qed.

Lemma save_calls_print_only (d : list event) : Forall print_only d -> save_calls d = [].
Proof.
  induction 1 as [|ev d Hev _ IH]; [reflexivity|].
  destruct ev; simpl in *; solve [exact IH | contradiction].
Qed.

Lemma gets_print_only (d : list event) : Forall print_only d -> gets d = [].
Proof.
  induction 1 as [|ev d Hev _ IH]; [reflexivity|].
  destruct ev; simpl in *; solve [exact IH | contradiction].
Qed.

Lemma fetch_log {A} (h : option headers_t) (m : M A) (w w1 : world) (r : result A) :
  emits (metadata_event h) m -> m w = (r, w1) ->
  exists d, log w1 = (log w ++ d)%list /\ save_calls d = [].
Proof.
  intros Hm Hrun. destruct (Hm w) as (d & Hd & F). rewrite Hrun in Hd.
  exists d. split; [exact Hd | exact (save_calls_metadata _ _ F)].
Qed.

Lemma download_bing_fetched (E : env) (target : string) (w w1 : world)
    (resp : response) (data : json) :
  bing_fetch E w = (Ret resp, w1) ->
  json_body resp = Some data ->
  download_bing E target w
  = (images <- lift (dict_get data "images" JNull) ;;
     if negb (truthy images) then raise (Exception "No images found in Bing response")
     else
       images <- lift (getitem_key data "images") ;;
       image <- lift (getitem_0 images) ;;
       urlbase <- lift (getitem_key image "urlbase") ;;
       let img_url := "https://www.bing.com" ++ py_str E urlbase ++ "_1920x1080.jpg" in
       images <- lift (getitem_key data "images") ;;
       image <- lift (getitem_0 images) ;;
       title <- lift (dict_get image "title" (JStr "Unknown")) ;;
       images <- lift (getitem_key data "images") ;;
       image <- lift (getitem_0 images) ;;
       copyright_text <- lift (dict_get image "copyright" (JStr "Unknown")) ;;
       log_verbose ("Photo: " ++ py_str E title) ;;;
       log_verbose ("Copyright: " ++ py_str E copyright_text) ;;;
       download_and_save E (JStr img_url) target None ;;;
       ret tt) w1.
Proof.
  intros Hfetch Hjson. unfold download_bing, bing_fetch in *.
  unfold bind at 1 in Hfetch. unfold bind at 1.
  destruct (log_verbose "Fetching Bing Photo of the Day" w) as [[[]|e] w0]; [|discriminate].
  unfold bind at 1. rewrite Hfetch.
  unfold bind at 1. unfold response_json. rewrite Hjson. reflexivity.
Qed.

(** X12. Bing without images. When the answer of Bing is an object whose
    [images] is missing, [null] or an empty list, [download_bing] raises
    ["No images found in Bing response"] right after the fetch: there is no
    call of [download_and_save] and no second request. *)
Theorem download_bing_no_images (E : env) (target : string) (w w1 : world)
    (resp : response) (fields : list (string * json)) :
  bing_fetch E w = (Ret resp, w1) ->
  json_body resp = Some (JObj fields) ->
  truthy (field fields "images") = false ->
  download_bing E target w = (Raise (Exception "No images found in Bing response"), w1) /\
  exists d, log w1 = (log w ++ d)%list /\ save_calls d = [].
Proof.
  intros Hfetch Hjson Himages. split.
  - rewrite (download_bing_fetched E target w w1 resp _ Hfetch Hjson).
    rewrite dict_get_obj, bind_lift_ret. fold (field fields "images").
    now rewrite Himages.
  - apply (fetch_log None (bing_fetch E) w w1 (Ret resp)); [|exact Hfetch].
    unfold bing_fetch. emits_auto.
Qed.

Lemma download_bing_no_images_witness :
  download_bing env_bing_empty "out.jpg" initial_world
    = (Raise (Exception "No images found in Bing response"),
       snd (bing_fetch env_bing_empty initial_world)) /\
  exists d,
    log (snd (bing_fetch env_bing_empty initial_world)) = (log initial_world ++ d)%list /\
    save_calls d = [].
Proof.
  apply (download_bing_no_images env_bing_empty "out.jpg" initial_world _ _
           [("images", JArr [])] eq_refl eq_refl).
  reflexivity.
Defined.

(** X13. The picture of Bing. When the first element of [images] is an
    object with a [urlbase], [download_bing] goes on, after verbose messages
    at most, as [download_and_save] on the URL made of
    [https://www.bing.com], the [urlbase] and [_1920x1080.jpg], for the
    target given and without headers. *)
Theorem download_bing_image_url (E : env) (target : string) (w w1 : world)
    (resp : response) (fields image : list (string * json)) (rest : list json)
    (urlbase : json) :
  bing_fetch E w = (Ret resp, w1) ->
  json_body resp = Some (JObj fields) ->
  assoc "images" fields = Some (JArr (JObj image :: rest)) ->
  assoc "urlbase" image = Some urlbase ->
  exists dv,
    download_bing E target w
    = (download_and_save E
         (JStr ("https://www.bing.com" ++ py_str E urlbase ++ "_1920x1080.jpg"))
         target None ;;; ret tt)
        (mkWorld (VERBOSE w1) (clock w1) (log w1 ++ dv)) /\
    Forall print_only dv.
Proof.
  intros Hfetch Hjson Himages Hurlbase.
  rewrite (download_bing_fetched E target w w1 resp _ Hfetch Hjson).
  rewrite dict_get_obj, bind_lift_ret, Himages. cbn [truthy negb].
  rewrite !(getitem_key_obj _ _ _ Himages), bind_lift_ret.
  cbn [getitem_0]. rewrite bind_lift_ret.
  rewrite (getitem_key_obj _ _ _ Hurlbase), bind_lift_ret. cbv zeta.
  rewrite bind_lift_ret. cbn [getitem_0]. rewrite bind_lift_ret, dict_get_obj, bind_lift_ret.
  rewrite bind_lift_ret. cbn [getitem_0]. rewrite bind_lift_ret, dict_get_obj, bind_lift_ret.
  match goal with |- context [(log_verbose ?m1 ;;; ?k) w1] =>
    destruct (log_verbose_then m1 k w1) as (dv1 & -> & F1)
  end.
  match goal with |- context [(log_verbose ?m2 ;;; ?k) ?w2] =>
    destruct (log_verbose_then m2 k w2) as (dv2 & -> & F2)
  end.
  exists (dv1 ++ dv2)%list. simpl. rewrite <- app_assoc.
  split; [reflexivity | now apply Forall_app].
Qed.

Lemma download_bing_image_url_witness :
  exists dv,
    download_bing env_bing_image "out.jpg" initial_world
    = (download_and_save env_bing_image
         (JStr ("https://www.bing.com" ++ py_str env_bing_image (JStr "/th?id=OHR.Test")
                ++ "_1920x1080.jpg"))
         "out.jpg" None ;;; ret tt)
        (mkWorld (VERBOSE (snd (bing_fetch env_bing_image initial_world)))
           (clock (snd (bing_fetch env_bing_image initial_world)))
           (log (snd (bing_fetch env_bing_image initial_world)) ++ dv)) /\
    Forall print_only dv.
Proof.
  apply (download_bing_image_url env_bing_image "out.jpg" initial_world _ _
           [("images", JArr [JObj [("urlbase", JStr "/th?id=OHR.Test");
                                   ("title", JStr "T"); ("copyright", JStr "C")]])]
           [("urlbase", JStr "/th?id=OHR.Test"); ("title", JStr "T"); ("copyright", JStr "C")]
           [] (JStr "/th?id=OHR.Test") eq_refl eq_refl); reflexivity.
Defined.

(** X14. An image of Bing without [urlbase]. When the first element of
    [images] is an object that has no [urlbase], [download_bing] raises the
    [KeyError] of the missing key right after the fetch, without a call of
    [download_and_save]. *)
Theorem download_bing_no_urlbase (E : env) (target : string) (w w1 : world)
    (resp : response) (fields image : list (string * json)) (rest : list json) :
  bing_fetch E w = (Ret resp, w1) ->
  json_body resp = Some (JObj fields) ->
  assoc "images" fields = Some (JArr (JObj image :: rest)) ->
  assoc "urlbase" image = None ->
  download_bing E target w = (Raise (KeyError "'urlbase'"), w1) /\
  exists d, log w1 = (log w ++ d)%list /\ save_calls d = [].
Proof.
  intros Hfetch Hjson Himages Hurlbase. split.
  - rewrite (download_bing_fetched E target w w1 resp _ Hfetch Hjson).
    rewrite dict_get_obj, bind_lift_ret, Himages. cbn [truthy negb].
    rewrite (getitem_key_obj _ _ _ Himages), bind_lift_ret.
    cbn [getitem_0]. rewrite bind_lift_ret.
    cbn [getitem_key]. now rewrite Hurlbase.
  - apply (fetch_log None (bing_fetch E) w w1 (Ret resp)); [|exact Hfetch].
    unfold bing_fetch. emits_auto.
Qed.

Lemma download_bing_no_urlbase_witness :
  download_bing env_bing_no_urlbase "out.jpg" initial_world
    = (Raise (KeyError "'urlbase'"), snd (bing_fetch env_bing_no_urlbase initial_world)) /\
  exists d,
    log (snd (bing_fetch env_bing_no_urlbase initial_world))
      = (log initial_world ++ d)%list /\
    save_calls d = [].
Proof.
  apply (download_bing_no_urlbase env_bing_no_urlbase "out.jpg" initial_world _ _
           [("images", JArr [JObj [("title", JStr "T")]])] [("title", JStr "T")] []
           eq_refl eq_refl);
    reflexivity.
Defined.

Lemma nasa_fetch_emits (E : env) (api_key : string) :
  emits (metadata_event None) (nasa_fetch E api_key).
Proof. unfold nasa_fetch. emits_auto. Qed.

(** X15. NASA prefers [hdurl]. When the APOD answer is an image and its
    [hdurl] is true (a non-empty string, say), [download_nasa] goes on, after
    verbose messages at most, as [download_and_save] on [hdurl], whatever
    [url] is. *)
Theorem download_nasa_prefers_hdurl (E : env) (target api_key : string) (w w1 : world)
    (resp : response) (fields : list (string * json)) (hdurl : json) :
  nasa_fetch E api_key w = (Ret resp, w1) ->
  json_body resp = Some (JObj fields) ->
  field fields "media_type" = JStr "image" ->
  assoc "hdurl" fields = Some hdurl ->
  truthy hdurl = true ->
  exists dv,
    download_nasa E target api_key w
    = (download_and_save E hdurl target None ;;; ret tt)
        (mkWorld (VERBOSE w1) (clock w1) (log w1 ++ dv)) /\
    Forall print_only dv.
Proof.
  intros Hfetch Hjson Hmt Hhd Htrue.
  rewrite (download_nasa_fetched E target api_key w w1 resp _ Hfetch Hjson).
  rewrite dict_get_obj, bind_lift_ret. fold (field fields "media_type"). rewrite Hmt.
  change (not_equal_str (JStr "image") "image") with false. cbv iota.
  rewrite dict_get_obj, bind_lift_ret, Hhd, Htrue, bind_ret, Htrue. cbn [negb].
  rewrite dict_get_obj, bind_lift_ret, dict_get_obj, bind_lift_ret.
  match goal with |- context [(log_verbose ?m1 ;;; ?k) w1] =>
    destruct (log_verbose_then m1 k w1) as (dv1 & -> & F1)
  end.
  match goal with |- context [(log_verbose ?m2 ;;; ?k) ?w2] =>
    destruct (log_verbose_then m2 k w2) as (dv2 & -> & F2)
  end.
  exists (dv1 ++ dv2)%list. simpl. rewrite <- app_assoc.
  split; [reflexivity | now apply Forall_app].
Qed.

Lemma download_nasa_prefers_hdurl_witness :
  exists dv,
    download_nasa env_nasa_both "photo" "DEMO_KEY" initial_world
    = (download_and_save env_nasa_both (JStr "https://apod.nasa.gov/image/m31_big.jpg")
         "photo" None ;;; ret tt)
        (mkWorld (VERBOSE (snd (nasa_fetch env_nasa_both "DEMO_KEY" initial_world)))
           (clock (snd (nasa_fetch env_nasa_both "DEMO_KEY" initial_world)))
           (log (snd (nasa_fetch env_nasa_both "DEMO_KEY" initial_world)) ++ dv)) /\
    Forall print_only dv.
Proof.
  apply (download_nasa_prefers_hdurl env_nasa_both "photo" "DEMO_KEY" initial_world _ _
           [("media_type", JStr "image");
            ("url", JStr "https://apod.nasa.gov/image/m31_small.jpg");
            ("hdurl", JStr "https://apod.nasa.gov/image/m31_big.jpg")]
           (JStr "https://apod.nasa.gov/image/m31_big.jpg") eq_refl eq_refl);
    reflexivity.
Defined.

(** X16. NASA without a URL. When the APOD answer is an image and neither
    [hdurl] nor [url] is true (both missing, [null] or empty),
    [download_nasa] raises ["No image URL found in NASA APOD response"]
    right after the fetch, without a call of [download_and_save]. *)
Theorem download_nasa_no_url (E : env) (target api_key : string) (w w1 : world)
    (resp : response) (fields : list (string * json)) :
  nasa_fetch E api_key w = (Ret resp, w1) ->
  json_body resp = Some (JObj fields) ->
  field fields "media_type" = JStr "image" ->
  truthy (field fields "hdurl") = false ->
  truthy (field fields "url") = false ->
  download_nasa E target api_key w
    = (Raise (Exception "No image URL found in NASA APOD response"), w1) /\
  exists d, log w1 = (log w ++ d)%list /\ save_calls d = [].
Proof.
  intros Hfetch Hjson Hmt Hhd Hurl. split.
  - rewrite (download_nasa_fetched E target api_key w w1 resp _ Hfetch Hjson).
    rewrite dict_get_obj, bind_lift_ret. fold (field fields "media_type"). rewrite Hmt.
    change (not_equal_str (JStr "image") "image") with false. cbv iota.
    rewrite dict_get_obj, bind_lift_ret. fold (field fields "hdurl"). rewrite Hhd.
    rewrite dict_get_obj, bind_lift_ret. fold (field fields "url"). now rewrite Hurl.
  - exact (fetch_log None _ w w1 (Ret resp) (nasa_fetch_emits E api_key) Hfetch).
Qed.

Lemma download_nasa_no_url_witness :
  download_nasa env_nasa_no_url "photo" "DEMO_KEY" initial_world
    = (Raise (Exception "No image URL found in NASA APOD response"),
       snd (nasa_fetch env_nasa_no_url "DEMO_KEY" initial_world)) /\
  exists d,
    log (snd (nasa_fetch env_nasa_no_url "DEMO_KEY" initial_world))
      = (log initial_world ++ d)%list /\
    save_calls d = [].
Proof.
  apply (download_nasa_no_url env_nasa_no_url "photo" "DEMO_KEY" initial_world _ _
           [("media_type", JStr "image"); ("hdurl", JStr "")] eq_refl eq_refl);
    reflexivity.
Defined.

Lemma wikipedia_fetch_emits (E : env) :
  emits (metadata_event (Some wikipedia_headers)) (wikipedia_fetch E).
Proof. unfold wikipedia_fetch. emits_auto. Qed.

Lemma download_wikipedia_fetched (E : env) (target : string) (w w1 : world)
    (resp : response) (data : json) :
  wikipedia_fetch E w = (Ret resp, w1) ->
  json_body resp = Some data ->
  download_wikipedia E target w
  = (potd <- lift (dict_get data "image" JNull) ;;
     if negb (truthy potd) then
       raise (Exception "No Picture of the Day found in Wikipedia response")
     else
       image <- lift (dict_get potd "image" (JObj [])) ;;
       img_url <- lift (dict_get image "source" JNull) ;;
       if negb (truthy img_url) then
         raise (Exception "No image URL found in Wikipedia Picture of the Day")
       else
         title <- lift (dict_get potd "title" (JStr "Unknown")) ;;
         description <- lift (dict_get potd "description" (JObj [])) ;;
         description <- lift (dict_get description "text" (JStr "No description")) ;;
         artist <- lift (dict_get potd "artist" (JObj [])) ;;
         artist <- lift (dict_get artist "text" (JStr "Unknown")) ;;
         log_verbose ("Title: " ++ py_str E title) ;;;
         log_verbose ("Artist: " ++ py_str E artist) ;;;
         n <- lift (py_len description) ;;
         message <-
           (if 100 <? n then
              short <- lift (slice_100 description) ;;
              ret ("Description: " ++ py_str E short ++ "...")
            else ret ("Description: " ++ py_str E description)) ;;
         log_verbose message ;;;
         download_and_save E img_url target (Some wikipedia_headers) ;;;
         ret tt) w1.
Proof.
  intros Hfetch Hjson. unfold download_wikipedia, wikipedia_fetch in *.
  unfold bind at 1 in Hfetch. unfold bind at 1.
  destruct (log_verbose "Fetching Wikipedia Picture of the Day" w) as [[[]|e] w0];
    [|discriminate].
  cbv zeta. unfold bind at 1. rewrite Hfetch.
  unfold bind at 1. unfold response_json. rewrite Hjson. reflexivity.
Qed.

(** X17. Wikipedia without a picture. When the answer has no true [image]
    (missing, [null] or empty), [download_wikipedia] raises
    ["No Picture of the Day found in Wikipedia response"]; when [image] is an
    object whose inner [image] is missing or an object, and that has no
    true [source], it raises
    ["No image URL found in Wikipedia Picture of the Day"]. Both happen right
    after the fetch, without a call of [download_and_save]. *)
Theorem download_wikipedia_no_picture (E : env) (target : string) (w w1 : world)
    (resp : response) (fields : list (string * json)) :
  wikipedia_fetch E w = (Ret resp, w1) ->
  json_body resp = Some (JObj fields) ->
  (truthy (field fields "image") = false ->
   download_wikipedia E target w
     = (Raise (Exception "No Picture of the Day found in Wikipedia response"), w1)) /\
  (forall potd image,
     assoc "image" fields = Some (JObj potd) ->
     potd <> [] ->
     dict_get (JObj potd) "image" (JObj []) = Ret (JObj image) ->
     truthy (field image "source") = false ->
     download_wikipedia E target w
       = (Raise (Exception "No image URL found in Wikipedia Picture of the Day"), w1)) /\
  exists d, log w1 = (log w ++ d)%list /\ save_calls d = [].
Proof.
  intros Hfetch Hjson. split; [|split].
  - intros Himage.
    rewrite (download_wikipedia_fetched E target w w1 resp _ Hfetch Hjson).
    rewrite dict_get_obj, bind_lift_ret. fold (field fields "image"). now rewrite Himage.
  - intros potd image Hpotd Hne Himage Hsource.
    rewrite (download_wikipedia_fetched E target w w1 resp _ Hfetch Hjson).
    rewrite dict_get_obj, bind_lift_ret, Hpotd.
    replace (negb (truthy (JObj potd))) with false by (now destruct potd).
    rewrite Himage, bind_lift_ret.
    rewrite dict_get_obj, bind_lift_ret. fold (field image "source"). now rewrite Hsource.
  - exact (fetch_log _ _ w w1 (Ret resp) (wikipedia_fetch_emits E) Hfetch).
Qed.

Lemma download_wikipedia_no_picture_witness :
  download_wikipedia env_wikipedia_no_image "potd.jpg" initial_world
    = (Raise (Exception "No Picture of the Day found in Wikipedia response"),
       snd (wikipedia_fetch env_wikipedia_no_image initial_world)) /\
  download_wikipedia env_wikipedia_no_source "potd.jpg" initial_world
    = (Raise (Exception "No image URL found in Wikipedia Picture of the Day"),
       snd (wikipedia_fetch env_wikipedia_no_source initial_world)).
Proof.
  split.
  - apply (proj1 (download_wikipedia_no_picture env_wikipedia_no_image "potd.jpg"
                    initial_world _ _ [("tfa", JObj [])] eq_refl eq_refl)).
    reflexivity.
  - apply (proj1 (proj2 (download_wikipedia_no_picture env_wikipedia_no_source "potd.jpg"
                    initial_world _ _ [("image", JObj [("title", JStr "File:Moon.jpg")])]
                    eq_refl eq_refl))
             [("title", JStr "File:Moon.jpg")] []).
    + reflexivity.
    + discriminate.
    + reflexivity.
    + reflexivity.
Defined.

(** The part of [download_wikipedia] that reads the picture of the day,
    once its URL is known to be true. *)
Lemma download_wikipedia_picture (E : env) (target : string) (w w1 : world)
    (resp : response) (fields potd image : list (string * json)) :
  wikipedia_fetch E w = (Ret resp, w1) ->
  json_body resp = Some (JObj fields) ->
  assoc "image" fields = Some (JObj potd) ->
  potd <> [] ->
  dict_get (JObj potd) "image" (JObj []) = Ret (JObj image) ->
  truthy (field image "source") = true ->
  download_wikipedia E target w
  = (title <- lift (dict_get (JObj potd) "title" (JStr "Unknown")) ;;
     description <- lift (dict_get (JObj potd) "description" (JObj [])) ;;
     description <- lift (dict_get description "text" (JStr "No description")) ;;
     artist <- lift (dict_get (JObj potd) "artist" (JObj [])) ;;
     artist <- lift (dict_get artist "text" (JStr "Unknown")) ;;
     log_verbose ("Title: " ++ py_str E title) ;;;
     log_verbose ("Artist: " ++ py_str E artist) ;;;
     n <- lift (py_len description) ;;
     message <-
       (if 100 <? n then
          short <- lift (slice_100 description) ;;
          ret ("Description: " ++ py_str E short ++ "...")
        else ret ("Description: " ++ py_str E description)) ;;
     log_verbose message ;;;
     download_and_save E (field image "source") target (Some wikipedia_headers) ;;;
     ret tt) w1.
Proof.
  intros Hfetch Hjson Hpotd Hne Himage Hsource.
  rewrite (download_wikipedia_fetched E target w w1 resp _ Hfetch Hjson).
  rewrite dict_get_obj, bind_lift_ret, Hpotd.
  replace (negb (truthy (JObj potd))) with false by (now destruct potd).
  rewrite Himage, bind_lift_ret.
  rewrite dict_get_obj, bind_lift_ret. fold (field image "source"). now rewrite Hsource.
Qed.

(** X18. The picture of Wikipedia. When the answer has a picture with a true
    [source], an [artist] that is missing or an object, and a description
    whose text is a string, [download_wikipedia] goes on, after verbose
    messages at most, as [download_and_save] on the [source], with the
    [User-Agent] header. *)
Theorem download_wikipedia_image_url (E : env) (target : string) (w w1 : world)
    (resp : response) (fields potd image description artist : list (string * json))
    (text : string) :
  wikipedia_fetch E w = (Ret resp, w1) ->
  json_body resp = Some (JObj fields) ->
  assoc "image" fields = Some (JObj potd) ->
  potd <> [] ->
  dict_get (JObj potd) "image" (JObj []) = Ret (JObj image) ->
  truthy (field image "source") = true ->
  dict_get (JObj potd) "description" (JObj []) = Ret (JObj description) ->
  dict_get (JObj description) "text" (JStr "No description") = Ret (JStr text) ->
  dict_get (JObj potd) "artist" (JObj []) = Ret (JObj artist) ->
  exists dv,
    download_wikipedia E target w
    = (download_and_save E (field image "source") target (Some wikipedia_headers) ;;; ret tt)
        (mkWorld (VERBOSE w1) (clock w1) (log w1 ++ dv)) /\
    Forall print_only dv.
Proof.
  intros Hfetch Hjson Hpotd Hne Himage Hsource Hdesc Htext Hartist.
  rewrite (download_wikipedia_picture E target w w1 resp fields potd image
             Hfetch Hjson Hpotd Hne Himage Hsource).
  rewrite dict_get_obj, bind_lift_ret.
  rewrite Hdesc, bind_lift_ret, Htext, bind_lift_ret.
  rewrite Hartist, bind_lift_ret, dict_get_obj, bind_lift_ret.
  match goal with |- context [(log_verbose ?m1 ;;; ?k) w1] =>
    destruct (log_verbose_then m1 k w1) as (dv1 & -> & F1)
  end.
  match goal with |- context [(log_verbose ?m2 ;;; ?k) ?w2] =>
    destruct (log_verbose_then m2 k w2) as (dv2 & -> & F2)
  end.
  cbn [py_len]. rewrite bind_lift_ret.
  destruct (100 <? Z.of_nat (String.length text)).
  - cbn [slice_100]. rewrite bind_assoc, bind_lift_ret, bind_ret.
    match goal with |- context [(log_verbose ?m3 ;;; ?k) ?w3] =>
      destruct (log_verbose_then m3 k w3) as (dv3 & -> & F3)
    end.
    exists (dv1 ++ dv2 ++ dv3)%list. cbn [VERBOSE clock log]. rewrite <- !app_assoc.
    split; [reflexivity|]. apply Forall_app. split; [exact F1|].
    apply Forall_app. now split.
  - rewrite bind_ret.
    match goal with |- context [(log_verbose ?m3 ;;; ?k) ?w3] =>
      destruct (log_verbose_then m3 k w3) as (dv3 & -> & F3)
    end.
    exists (dv1 ++ dv2 ++ dv3)%list. cbn [VERBOSE clock log]. rewrite <- !app_assoc.
    split; [reflexivity|]. apply Forall_app. split; [exact F1|].
    apply Forall_app. now split.
Qed.

Lemma download_wikipedia_image_url_witness :
  exists dv,
    download_wikipedia env_wikipedia_image "potd.jpg" initial_world
    = (download_and_save env_wikipedia_image (JStr "https://upload.wikimedia.org/moon.jpg")
         "potd.jpg" (Some wikipedia_headers) ;;; ret tt)
        (mkWorld (VERBOSE (snd (wikipedia_fetch env_wikipedia_image initial_world)))
           (clock (snd (wikipedia_fetch env_wikipedia_image initial_world)))
           (log (snd (wikipedia_fetch env_wikipedia_image initial_world)) ++ dv)) /\
    Forall print_only dv.
Proof.
  apply (download_wikipedia_image_url env_wikipedia_image "potd.jpg" initial_world _ _
           [("image",
             JObj [("title", JStr "File:Moon.jpg");
                   ("image", JObj [("source", JStr "https://upload.wikimedia.org/moon.jpg")]);
                   ("description", JObj [("text", JStr "The Moon")])])]
           [("title", JStr "File:Moon.jpg");
            ("image", JObj [("source", JStr "https://upload.wikimedia.org/moon.jpg")]);
            ("description", JObj [("text", JStr "The Moon")])]
           [("source", JStr "https://upload.wikimedia.org/moon.jpg")]
           [("text", JStr "The Moon")] [] "The Moon" eq_refl eq_refl);
    try reflexivity.
  discriminate.
Defined.

(** X19. A description that has no length stops Wikipedia. The message about
    the description is computed whether or not it is printed: when the text
    of the description is a value without [len()] (a number, [null], a
    boolean), [download_wikipedia] raises the [TypeError] of [len], after
    verbose messages at most and without a call of [download_and_save],
    though the picture has a URL. *)
Theorem download_wikipedia_description_without_len (E : env) (target : string)
    (w w1 : world) (resp : response)
    (fields potd image description artist : list (string * json)) (text : json) (e : exn) :
  wikipedia_fetch E w = (Ret resp, w1) ->
  json_body resp = Some (JObj fields) ->
  assoc "image" fields = Some (JObj potd) ->
  potd <> [] ->
  dict_get (JObj potd) "image" (JObj []) = Ret (JObj image) ->
  truthy (field image "source") = true ->
  dict_get (JObj potd) "description" (JObj []) = Ret (JObj description) ->
  assoc "text" description = Some text ->
  py_len text = Raise e ->
  dict_get (JObj potd) "artist" (JObj []) = Ret (JObj artist) ->
  exists d,
    download_wikipedia E target w
      = (Raise e, mkWorld (VERBOSE w1) (clock w1) (log w ++ d)) /\
    save_calls d = [].
Proof.
  intros Hfetch Hjson Hpotd Hne Himage Hsource Hdesc Htext Hlen Hartist.
  destruct (fetch_log _ _ w w1 (Ret resp) (wikipedia_fetch_emits E) Hfetch)
    as (d0 & Hd0 & Hs0).
  rewrite (download_wikipedia_picture E target w w1 resp fields potd image
             Hfetch Hjson Hpotd Hne Himage Hsource).
  rewrite dict_get_obj, bind_lift_ret.
  rewrite Hdesc, bind_lift_ret, dict_get_obj, Htext, bind_lift_ret.
  rewrite Hartist, bind_lift_ret, dict_get_obj, bind_lift_ret.
  match goal with |- context [(log_verbose ?m1 ;;; ?k) w1] =>
    destruct (log_verbose_then m1 k w1) as (dv1 & -> & F1)
  end.
  match goal with |- context [(log_verbose ?m2 ;;; ?k) ?w2] =>
    destruct (log_verbose_then m2 k w2) as (dv2 & -> & F2)
  end.
  rewrite Hlen, bind_lift_raise.
  exists (d0 ++ dv1 ++ dv2)%list. simpl. rewrite Hd0, <- !app_assoc.
  split; [reflexivity|].
  now rewrite !save_calls_app, Hs0, (save_calls_print_only _ F1), (save_calls_print_only _ F2).
Qed.

Lemma download_wikipedia_description_without_len_witness :
  exists d,
    download_wikipedia env_wikipedia_numeric_description "potd.jpg" initial_world
      = (Raise (TypeError "object of type 'int' has no len()"),
         mkWorld
           (VERBOSE (snd (wikipedia_fetch env_wikipedia_numeric_description initial_world)))
           (clock (snd (wikipedia_fetch env_wikipedia_numeric_description initial_world)))
           (log initial_world ++ d)) /\
    save_calls d = [].
Proof.
  apply (download_wikipedia_description_without_len env_wikipedia_numeric_description
           "potd.jpg" initial_world _ _
           [("image",
             JObj [("image", JObj [("source", JStr "https://upload.wikimedia.org/moon.jpg")]);
                   ("description", JObj [("text", JInt 7)])])]
           [("image", JObj [("source", JStr "https://upload.wikimedia.org/moon.jpg")]);
            ("description", JObj [("text", JInt 7)])]
           [("source", JStr "https://upload.wikimedia.org/moon.jpg")]
           [("text", JInt 7)] [] (JInt 7) _ eq_refl eq_refl);
    try reflexivity.
  discriminate.
Defined.

Lemma download_unsplash_fetched (E : env) (target api_key : string)
    (topic query : option string) (w w1 : world) (resp : response) (data : json) :
  api_key <> "" ->
  unsplash_fetch E api_key topic query w = (Ret resp, w1) ->
  json_body resp = Some data ->
  download_unsplash E target api_key topic query w
  = (urls <- lift (dict_get data "urls" (JObj [])) ;;
     full <- lift (dict_get urls "full" JNull) ;;
     img_url <-
       (if truthy full then ret full
        else
          urls <- lift (dict_get data "urls" (JObj [])) ;;
          lift (dict_get urls "regular" JNull)) ;;
     if negb (truthy img_url) then raise (Exception "No image URL found in Unsplash response")
     else
       user <- lift (dict_get data "user" (JObj [])) ;;
       photographer <- lift (dict_get user "name" (JStr "Unknown")) ;;
       log_verbose ("Photo by: " ++ py_str E photographer) ;;;
       download_and_save E img_url target None ;;;
       ret tt) w1.
Proof.
  intros Hkey Hfetch Hjson. apply String.eqb_neq in Hkey.
  unfold download_unsplash, unsplash_fetch in *. rewrite Hkey. cbv zeta in *.
  unfold bind at 1 in Hfetch. unfold bind at 1.
  destruct (log_verbose _ w) as [[[]|e] w0]; [|discriminate].
  unfold bind at 1 in Hfetch. unfold bind at 1.
  match goal with |- context [match ?m w0 with _ => _ end] =>
    destruct (m w0) as [[params1|e] w01]; [|discriminate]
  end.
  unfold bind at 1 in Hfetch. unfold bind at 1.
  match goal with |- context [match ?m w01 with _ => _ end] =>
    destruct (m w01) as [[params2|e] w02]; [|discriminate]
  end.
  unfold bind at 1 in Hfetch. unfold bind at 1.
  destruct (log_verbose _ w02) as [[[]|e] w03]; [|discriminate].
  unfold bind at 1. rewrite Hfetch.
  unfold bind at 1. unfold response_json. rewrite Hjson. reflexivity.
Qed.

Lemma unsplash_fetch_emits (E : env) (api_key : string) (topic query : option string) :
  emits (metadata_event (Some [("Authorization", "Client-ID " ++ api_key)]))
    (unsplash_fetch E api_key topic query).
Proof. unfold unsplash_fetch. emits_auto. Qed.

(** A step whose value is known: what follows is run on this value. *)
Lemma emits_bind_value {A B} (P : event -> Prop) (m : M A) (v : A) (k : A -> M B) :
  emits P m ->
  (forall w a w', m w = (Ret a, w') -> a = v) ->
  emits P (k v) ->
  emits P (bind m k).
Proof.
  intros Hm Hv Hk w. unfold bind.
  destruct (Hm w) as (d1 & H1 & F1).
  destruct (m w) as [[a|e] w1] eqn:Hrun; simpl in *.
  - rewrite (Hv w a w1 Hrun).
    destruct (Hk w1) as (d2 & H2 & F2).
    exists (d1 ++ d2)%list. rewrite H2, H1, app_assoc. split; [reflexivity|].
    now apply Forall_app.
  - now exists d1.
Qed.

Lemma ret_value {A} (v a : A) (w w' : world) : ret v w = (Ret a, w') -> a = v.
Proof. unfold ret. congruence. Qed.

Lemma log_verbose_ret_value {A} (msg : string) (v a : A) (w w' : world) :
  (log_verbose msg ;;; ret v) w = (Ret a, w') -> a = v.
Proof.
  unfold bind, log_verbose, print, emit, ret. destruct (VERBOSE w); congruence.
Qed.

(** X20. The request of Unsplash. Whatever the answers, every GET of
    [download_unsplash] that carries headers is the same request: for the
    random-photo endpoint, with the key in an [Authorization: Client-ID]
    header, and with the parameters [orientation = landscape], then [topics]
    and [query] when they are given and not empty. *)
Theorem download_unsplash_request (E : env) (target api_key : string)
    (topic query : option string) (w : world) :
  exists d,
    log (snd (download_unsplash E target api_key topic query w)) = (log w ++ d)%list /\
    Forall (unsplash_event api_key topic query) d.
Proof.
  revert w. change (emits (unsplash_event api_key topic query)
                      (download_unsplash E target api_key topic query)).
  unfold download_unsplash, unsplash_request.
  apply emits_bind; [emits_auto|]. intros _.
  destruct (api_key =? "")%string; [emits_auto|]. cbv zeta.
  destruct topic as [t|]; destruct query as [q|]; unfold optional_param;
    try destruct (truthy_opt (Some t)) eqn:Ht; try destruct (truthy_opt (Some q)) eqn:Hq;
    cbv iota;
    (eapply emits_bind_value;
       [ emits_auto
       | intros w0 a0 w1; first [ apply ret_value | apply log_verbose_ret_value ] | ];
     eapply emits_bind_value;
       [ emits_auto
       | intros w0 a0 w1; first [ apply ret_value | apply log_verbose_ret_value ] | ];
     repeat first
       [ progress emits_auto
       | left; unfold unsplash_request, optional_param; rewrite ?Ht, ?Hq; reflexivity
       | right; reflexivity ]).
Qed.

(** X21. Unsplash prefers [urls.full]. Once the answer is fetched and is an
    object whose [urls] and [user] are objects (or missing):
    when [urls.full] is true, [download_unsplash] goes on, after a verbose
    message at most, as [download_and_save] on it; when it is not and
    [urls.regular] is true, as [download_and_save] on [urls.regular]. The
    picture is fetched without headers. *)
Theorem download_unsplash_prefers_full (E : env) (target api_key : string)
    (topic query : option string) (w w1 : world) (resp : response)
    (fields urls user : list (string * json)) :
  api_key <> "" ->
  unsplash_fetch E api_key topic query w = (Ret resp, w1) ->
  json_body resp = Some (JObj fields) ->
  dict_get (JObj fields) "urls" (JObj []) = Ret (JObj urls) ->
  dict_get (JObj fields) "user" (JObj []) = Ret (JObj user) ->
  (truthy (field urls "full") = true ->
   exists dv,
     download_unsplash E target api_key topic query w
     = (download_and_save E (field urls "full") target None ;;; ret tt)
         (mkWorld (VERBOSE w1) (clock w1) (log w1 ++ dv)) /\
     Forall print_only dv) /\
  (truthy (field urls "full") = false ->
   truthy (field urls "regular") = true ->
   exists dv,
     download_unsplash E target api_key topic query w
     = (download_and_save E (field urls "regular") target None ;;; ret tt)
         (mkWorld (VERBOSE w1) (clock w1) (log w1 ++ dv)) /\
     Forall print_only dv).
Proof.
  intros Hkey Hfetch Hjson Hurls Huser.
  rewrite (download_unsplash_fetched E target api_key topic query w w1 resp _
             Hkey Hfetch Hjson).
  rewrite Hurls, bind_lift_ret, dict_get_obj, bind_lift_ret. fold (field urls "full").
  split.
  - intros Hfull. rewrite Hfull, bind_ret, Hfull. cbn [negb].
    rewrite Huser, bind_lift_ret, dict_get_obj, bind_lift_ret.
    match goal with |- context [(log_verbose ?m1 ;;; ?k) w1] =>
      destruct (log_verbose_then m1 k w1) as (dv1 & -> & F1)
    end.
    now exists dv1.
  - intros Hfull Hregular. rewrite Hfull.
    rewrite bind_assoc, bind_lift_ret, dict_get_obj.
    fold (field urls "regular"). rewrite bind_lift_ret, Hregular. cbn [negb].
    rewrite Huser, bind_lift_ret, dict_get_obj, bind_lift_ret.
    match goal with |- context [(log_verbose ?m1 ;;; ?k) w1] =>
      destruct (log_verbose_then m1 k w1) as (dv1 & -> & F1)
    end.
    now exists dv1.
Qed.

Lemma download_unsplash_prefers_full_witness :
  exists dv,
    download_unsplash env_unsplash_regular "photo.jpg" "KEY" None None initial_world
    = (download_and_save env_unsplash_regular (JStr "https://images.unsplash.com/photo-2")
         "photo.jpg" None ;;; ret tt)
        (mkWorld
           (VERBOSE (snd (unsplash_fetch env_unsplash_regular "KEY" None None initial_world)))
           (clock (snd (unsplash_fetch env_unsplash_regular "KEY" None None initial_world)))
           (log (snd (unsplash_fetch env_unsplash_regular "KEY" None None initial_world))
            ++ dv)) /\
    Forall print_only dv.
Proof.
  apply (proj2 (download_unsplash_prefers_full env_unsplash_regular "photo.jpg" "KEY"
                  None None initial_world _ _
                  [("urls", JObj [("regular", JStr "https://images.unsplash.com/photo-2")]);
                   ("user", JObj [("name", JStr "Ann")])]
                  [("regular", JStr "https://images.unsplash.com/photo-2")]
                  [("name", JStr "Ann")]
                  ltac:(discriminate) eq_refl eq_refl eq_refl eq_refl));
    reflexivity.
Defined.

(** X22. Unsplash without a URL. When the answer is an object whose [urls]
    is missing or an object, and neither [urls.full] nor [urls.regular] is
    true, [download_unsplash] raises
    ["No image URL found in Unsplash response"] right after the fetch,
    without a call of [download_and_save]. *)
Theorem download_unsplash_no_url (E : env) (target api_key : string)
    (topic query : option string) (w w1 : world) (resp : response)
    (fields urls : list (string * json)) :
  api_key <> "" ->
  unsplash_fetch E api_key topic query w = (Ret resp, w1) ->
  json_body resp = Some (JObj fields) ->
  dict_get (JObj fields) "urls" (JObj []) = Ret (JObj urls) ->
  truthy (field urls "full") = false ->
  truthy (field urls "regular") = false ->
  download_unsplash E target api_key topic query w
    = (Raise (Exception "No image URL found in Unsplash response"), w1) /\
  exists d, log w1 = (log w ++ d)%list /\ save_calls d = [].
Proof.
  intros Hkey Hfetch Hjson Hurls Hfull Hregular. split.
  - rewrite (download_unsplash_fetched E target api_key topic query w w1 resp _
               Hkey Hfetch Hjson).
    rewrite Hurls, bind_lift_ret, dict_get_obj, bind_lift_ret. fold (field urls "full").
    rewrite Hfull, bind_assoc, bind_lift_ret, dict_get_obj.
    fold (field urls "regular"). now rewrite bind_lift_ret, Hregular.
  - exact (fetch_log _ _ w w1 (Ret resp) (unsplash_fetch_emits E api_key topic query) Hfetch).
Qed.

Lemma download_unsplash_no_url_witness :
  download_unsplash env_unsplash_no_urls "photo.jpg" "KEY" None None initial_world
    = (Raise (Exception "No image URL found in Unsplash response"),
       snd (unsplash_fetch env_unsplash_no_urls "KEY" None None initial_world)) /\
  exists d,
    log (snd (unsplash_fetch env_unsplash_no_urls "KEY" None None initial_world))
      = (log initial_world ++ d)%list /\
    save_calls d = [].
Proof.
  apply (download_unsplash_no_url env_unsplash_no_urls "photo.jpg" "KEY" None None
           initial_world _ _ [("id", JStr "abc")] []
           ltac:(discriminate) eq_refl eq_refl eq_refl); reflexivity.
Defined.

(** X23. The key of Unsplash is checked twice. [download_unsplash] with an
    empty key raises its own exception before any request, after a verbose
    message at most; and [main] refuses an empty [--unsplash-api-key] as it
    refuses a missing one: two lines on the error stream, exit status 1, no
    request. *)
Theorem unsplash_empty_key (E : env) (target api_key : string)
    (topic query : option string) (verbose : bool) (w : world) :
  (exists dv,
     download_unsplash E target "" topic query w
       = (Raise (Exception
                   "Unsplash API key is required. Get one at https://unsplash.com/developers"),
          mkWorld (VERBOSE w) (clock w) (log w ++ dv)) /\
     Forall print_only dv) /\
  main E (mkArgs unsplash target api_key (Some "") topic query verbose) w
    = (Raise (SystemExit 1),
       mkWorld verbose (clock w)
         (log w ++
          [EPrint Stderr "Error: --unsplash-api-key is required for Unsplash source";
           EPrint Stderr "Get a free API key at: https://unsplash.com/developers"])).
Proof.
  split.
  - unfold download_unsplash.
    match goal with |- context [(log_verbose ?m1 ;;; ?k) w] =>
      destruct (log_verbose_then m1 k w) as (dv1 & Hrun & F1)
    end.
    exists dv1. split; [|exact F1]. rewrite Hrun. reflexivity.
  - unfold main, try_except, bind, set_verbose, print, emit, sys_exit, raise. simpl.
    now rewrite <- app_assoc.
Qed.
